(** * ReaderSpace library management: a shallow embedding of
      [ReaderSpace_app.py] and the properties of its record model.

    The program is a Streamlit script: every user interaction re-runs the
    whole file from top to bottom.  One run is modelled as a computation in a
    small state-and-exception monad over a [World] (the file system, the
    wall clock, the SMS gateway, the screen).  The values returned by the
    input widgets of a run are collected in a record [Inputs]. *)

From stdpp Require Import base strings pretty list gmap.
From Stdlib Require Import ZArith Lia Ascii.

Local Open Scope Z_scope.

(** ** Dates: the part of [datetime] the script uses *)

Module Calendar.

(** A [datetime] value.  The script only ever reads [.year] and [.month]
    and formats with ["%Y-%m-%d"], so the time of day is left out. *)
Record datetime : Type := mk_datetime { year : Z; month : Z; day : Z }.

Definition is_leap (y : Z) : bool :=
  (y mod 4 =? 0) && (negb (y mod 100 =? 0) || (y mod 400 =? 0)).

Definition days_in_month (y m : Z) : Z :=
  if m =? 2 then (if is_leap y then 29 else 28)
  else if (m =? 4) || (m =? 6) || (m =? 9) || (m =? 11) then 30
  else 31.

(** The range check of the [datetime] constructor
    (MINYEAR = 1, MAXYEAR = 9999). *)
Definition valid_date (y m d : Z) : bool :=
  (1 <=? y) && (y <=? 9999) && (1 <=? m) && (m <=? 12) &&
  (1 <=? d) && (d <=? days_in_month y m).

Definition valid (dt : datetime) : bool :=
  valid_date (year dt) (month dt) (day dt).

(** ASCII decimal digits. *)
Definition digit_char (n : Z) : ascii := ascii_of_nat (48 + Z.to_nat n).

Definition digit_val (c : ascii) : Z := Z.of_nat (nat_of_ascii c) - 48.

Definition in_range (lo hi : nat) (c : ascii) : bool :=
  (lo <=? nat_of_ascii c)%nat && (nat_of_ascii c <=? hi)%nat.

(** [dt.strftime("%Y-%m-%d")] for a value in the constructor's range: the
    year in four digits, the month and the day in two.  Years below 1000,
    which no clock reads, are zero-filled here as well. *)
Definition four_digits (n : Z) : string :=
  String (digit_char (n / 1000 mod 10))
    (String (digit_char (n / 100 mod 10))
       (String (digit_char (n / 10 mod 10))
          (String (digit_char (n mod 10)) EmptyString))).

Definition two_digits (n : Z) : string :=
  String (digit_char (n / 10 mod 10)) (String (digit_char (n mod 10)) EmptyString).

Definition strftime (dt : datetime) : string :=
  four_digits (year dt) +:+ "-" +:+ two_digits (month dt) +:+ "-" +:+ two_digits (day dt).

(** A Python [str] is a sequence of code points; a [string] here holds
    its UTF-8 bytes.  [code_point s] is the first character of [s] and
    the text after it. *)
Definition byte (c : ascii) : Z := Z.of_nat (nat_of_ascii c).

Definition trailing (c : ascii) : option Z :=
  if in_range 128 191 c then Some (byte c - 128) else None.

Definition code_point (s : string) : option (Z * string) :=
  match s with
  | EmptyString => None
  | String c0 s1 =>
      if in_range 0 127 c0 then Some (byte c0, s1)
      else if in_range 194 223 c0 then
        match s1 with
        | String c1 s2 =>
            match trailing c1 with
            | Some t1 => Some (64 * (byte c0 - 192) + t1, s2)
            | None => None
            end
        | EmptyString => None
        end
      else if in_range 224 239 c0 then
        match s1 with
        | String c1 (String c2 s3) =>
            match trailing c1, trailing c2 with
            | Some t1, Some t2 =>
                let cp := 4096 * (byte c0 - 224) + 64 * t1 + t2 in
                if (2048 <=? cp) && negb ((55296 <=? cp) && (cp <=? 57343))
                then Some (cp, s3) else None
            | _, _ => None
            end
        | _ => None
        end
      else if in_range 240 244 c0 then
        match s1 with
        | String c1 (String c2 (String c3 s4)) =>
            match trailing c1, trailing c2, trailing c3 with
            | Some t1, Some t2, Some t3 =>
                let cp := 262144 * (byte c0 - 240) + 4096 * t1 + 64 * t2 + t3 in
                if (65536 <=? cp) && (cp <=? 1114111)
                then Some (cp, s4) else None
            | _, _, _ => None
            end
        | _ => None
        end
      else None
  end.

(** The decimal digits of Unicode (category Nd, as of Unicode 14, the
    table of Python 3.11): the characters the pattern [\d] matches and
    [int] reads.  They come in runs of ten, zero to nine; the list has
    the code point of each zero. *)
Definition decimal_zeros : list Z :=
  [48; 1632; 1776; 1984; 2406; 2534; 2662; 2790; 2918; 3046; 3174; 3302;
   3430; 3558; 3664; 3792; 3872; 4160; 4240; 6112; 6160; 6470; 6608; 6784;
   6800; 6992; 7088; 7232; 7248; 42528; 43216; 43264; 43472; 43504; 43600;
   44016; 65296; 66720; 68912; 69734; 69872; 69942; 70096; 70384; 70736;
   70864; 71248; 71360; 71472; 71904; 72016; 72784; 73040; 73120; 92768;
   92864; 93008; 120782; 120792; 120802; 120812; 120822; 123200; 123632;
   125264; 130032].

Definition decimal (cp : Z) : option Z :=
  match find (fun zero => (zero <=? cp) && (cp <=? zero + 9)) decimal_zeros with
  | Some zero => Some (cp - zero)
  | None => None
  end.

(** The pieces of the pattern.  Each reads a prefix of the text and
    gives the number read so far and the text left over. *)
Definition Reader : Type := string -> option (Z * string).

(** [\d]: any decimal digit. *)
Definition any_digit : Reader :=
  fun s =>
    match code_point s with
    | Some (cp, rest) =>
        match decimal cp with
        | Some n => Some (n, rest)
        | None => None
        end
    | None => None
    end.

(** [[lo-hi]]: a class of ASCII digits, given by the codes of its ends. *)
Definition digit_in (lo hi : nat) : Reader :=
  fun s =>
    match s with
    | String c rest => if in_range lo hi c then Some (digit_val c, rest) else None
    | EmptyString => None
    end.

(** A space before the digits of a group: [int] skips it. *)
Definition after_space (p : Reader) : Reader :=
  fun s =>
    match s with
    | String c rest => if Ascii.eqb c " "%char then p rest else None
    | EmptyString => None
    end.

(** [pq]: two digits in a row, read as [int] reads them. *)
Definition followed_by (p q : Reader) : Reader :=
  fun s =>
    match p s with
    | Some (a, s1) =>
        match q s1 with
        | Some (b, s2) => Some (10 * a + b, s2)
        | None => None
        end
    | None => None
    end.

(** [p|q]: the first alternative that matches. *)
Definition or_else (p q : Reader) : Reader :=
  fun s =>
    match p s with
    | Some r => Some r
    | None => q s
    end.

(** The [-] between the groups. *)
Definition dash (s : string) : option string :=
  match s with
  | String c rest => if Ascii.eqb c "-"%char then Some rest else None
  | EmptyString => None
  end.

(** [%Y] is [\d\d\d\d]. *)
Definition parse_year : Reader :=
  followed_by (followed_by (followed_by any_digit any_digit) any_digit) any_digit.

(** [%m] is [1[0-2]|0[1-9]|[1-9]]. *)
Definition parse_month : Reader :=
  or_else (followed_by (digit_in 49 49) (digit_in 48 50))
    (or_else (followed_by (digit_in 48 48) (digit_in 49 57))
       (digit_in 49 57)).

(** [%d] is [3[0-1]|[1-2]\d|0[1-9]|[1-9]| [1-9]]. *)
Definition parse_day : Reader :=
  or_else (followed_by (digit_in 51 51) (digit_in 48 49))
    (or_else (followed_by (digit_in 49 50) any_digit)
       (or_else (followed_by (digit_in 48 48) (digit_in 49 57))
          (or_else (digit_in 49 57)
             (after_space (digit_in 49 57))))).

(** [datetime.strptime(s, "%Y-%m-%d")].  The format is compiled to the
    regular expression
    [(\d\d\d\d)-(1[0-2]|0[1-9]|[1-9])-(3[0-1]|[1-2]\d|0[1-9]|[1-9]| [1-9])]
    and matched at the start of the text.  Taking the first alternative
    that matches loses nothing: a month read by an earlier alternative
    leaves a digit where a later one wants the [-], and nothing follows
    the day in the pattern.  The match has to use up the whole text
    ("unconverted data remains" otherwise), and the numbers found have to
    pass the constructor's range check; everything else is a ValueError
    ([None] here). *)
Definition strptime (s : string) : option datetime :=
  match parse_year s with
  | Some (y, s1) =>
      match dash s1 with
      | Some s2 =>
          match parse_month s2 with
          | Some (m, s3) =>
              match dash s3 with
              | Some s4 =>
                  match parse_day s4 with
                  | Some (d, EmptyString) =>
                      if valid_date y m d then Some (mk_datetime y m d) else None
                  | _ => None
                  end
              | None => None
              end
          | None => None
          end
      | None => None
      end
  | None => None
  end.

End Calendar.
Export Calendar.

(** ** Python values used by the script *)

(** [str(n)] and the [{n}] of an f-string, for an [int]. *)
Definition str (n : Z) : string := pretty n.

(** Truth value of a string: [not s] holds of the empty string only. *)
Definition py_not (s : string) : bool :=
  match s with EmptyString => true | String _ _ => false end.

(** A Python [dict] with string keys: an association list in insertion
    order in which a key occurs at most once. *)
Module PyDict.
Section Ops.
Context {V : Type}.

Definition dict : Type := list (string * V).

Definition empty : dict := [].

(** [len(d)] *)
Definition len (d : dict) : Z := Z.of_nat (List.length d).

(** [d.get(k)]: [k in d] holds when it is [Some v], and [d[k]] is
    then [v]. *)
Fixpoint get (d : dict) (k : string) : option V :=
  match d with
  | [] => None
  | (k', v) :: d' => if String.eqb k' k then Some v else get d' k
  end.

(** [d[k] = v]: a key already present keeps its position and gets the
    new value, a new key goes to the end. *)
Fixpoint set (d : dict) (k : string) (v : V) : dict :=
  match d with
  | [] => [(k, v)]
  | (k', v') :: d' =>
      if String.eqb k' k then (k', v) :: d' else (k', v') :: set d' k v
  end.

(** [d.items()] and [d.keys()], in insertion order. *)
Definition items (d : dict) : list (string * V) := d.
Definition keys (d : dict) : list string := map fst d.
End Ops.
Arguments dict V : clear implicits.
End PyDict.

(** ** The record model *)

Definition FILENAME : string := "library_users.json".
Definition MONTHLY_FEE : Z := 500.

(** One entry of a member's ["payments"] list. *)
Record Payment : Type := mk_payment { date : string; amount : Z }.

(** A member record, the value stored under a library code. *)
Record User : Type := mk_user {
  name : string;
  father_name : string;
  address : string;
  email : string;
  contact : string;
  seatno : string;
  admission_date : string;
  last_payment : string;
  payments : list Payment
}.

Definition Dataset : Type := PyDict.dict User.

(** [user["last_payment"] = d] and [user["payments"].append(p)]. *)
Definition set_last_payment (user : User) (d : string) : User :=
  mk_user (name user) (father_name user) (address user) (email user)
    (contact user) (seatno user) (admission_date user) d (payments user).

Definition append_payment (user : User) (p : Payment) : User :=
  mk_user (name user) (father_name user) (address user) (email user)
    (contact user) (seatno user) (admission_date user) (last_payment user)
    (payments user ++ [p]).

(** A cell and a row of the report: a row is the dict built in
    [generate_report], column name to value, in the order written. *)
Inductive Cell : Type := CStr (s : string) | CInt (n : Z).
Definition Row : Type := list (string * Cell).
Definition DataFrame : Type := list Row.

(** ** The world a run acts on *)

(** What a file holds.  [json.dump] and [json.load] are taken as inverse to
    each other on datasets, so a JSON document that holds a dataset is
    represented by the dataset it decodes to.  [Malformed] is text that is
    not JSON at all, [Xlsx] the workbook [df.to_excel] writes.  JSON
    documents of another shape, which [json.load] would hand over as they
    are, have no counterpart among the typed records and are left out. *)
Inductive FileContent : Type :=
| JsonDoc (data : Dataset)
| Malformed (text : string)
| Xlsx (df : DataFrame).

(** What a download button offers: the bytes of [df.to_csv(index=False)],
    or an open file. *)
Inductive Download : Type :=
| csv_bytes (df : DataFrame)
| file_handle (content : FileContent).

(** What the script puts on the page. *)
Inductive UIEvent : Type :=
| st_title (s : string)
| st_subheader (s : string)
| st_error (s : string)
| st_success (s : string)
| st_warning (s : string)
| st_info (s : string)
| st_write (s : string)
| st_json (user : User)
| st_dataframe (df : DataFrame)
| st_download_button (label : string) (data : Download) (file_name : string).

Record World : Type := mk_world {
  files : gmap string FileContent;
  (** successive readings of [datetime.now()] and how many were taken *)
  clock : nat -> datetime;
  ticks : nat;
  (** whether [import twilio] succeeded, and the gateway: [None] when the
      message is accepted, [Some e] when looking up the secrets or sending
      raises the exception printed as [e] *)
  TWILIO_AVAILABLE : bool;
  twilio : string -> string -> option string;
  (** messages accepted by the gateway, oldest first *)
  outbox : list (string * string);
  (** what was rendered, oldest first *)
  screen : list UIEvent
}.

(** The values the widgets of one run return, by widget label.  Which
    buttons report a click in the same run, and what the fields hold, is
    for Streamlit and the user to decide: nothing is assumed about it. *)
Record Inputs : Type := mk_inputs {
  selectbox : string -> nat;
  text_input : string -> string;
  text_area : string -> string;
  number_input : string -> option Z;
  button : string -> bool
}.

(** ** A run: state and exceptions *)

Inductive exn : Type :=
| JSONDecodeError
| UnicodeDecodeError
| ValueError
| FileNotFoundError.

Inductive outcome (A : Type) : Type :=
| Done (a : A)
| Raised (e : exn).
Arguments Done {A} a.
Arguments Raised {A} e.

Definition M (A : Type) : Type := World -> outcome A * World.

Definition ret {A : Type} (a : A) : M A := fun w => (Done a, w).

Definition raise {A : Type} (e : exn) : M A := fun w => (Raised e, w).

Definition bind {A B : Type} (c : M A) (k : A -> M B) : M B :=
  fun w =>
    match c w with
    | (Done a, w') => k a w'
    | (Raised e, w') => (Raised e, w')
    end.

Notation "x <- c ;; k" := (bind c (fun x => k))
  (at level 62, c at next level, right associativity).

(** [for x in xs: body(x)] *)
Fixpoint for_each {A : Type} (xs : list A) (body : A -> M unit) : M unit :=
  match xs with
  | [] => ret tt
  | x :: xs' => _ <- body x ;; for_each xs' body
  end.

(** The four ways a run changes the world: it draws on the page, reads the
    clock, writes a file, hands a message to the gateway. *)
Definition show (e : UIEvent) (w : World) : World :=
  mk_world (files w) (clock w) (ticks w) (TWILIO_AVAILABLE w) (twilio w)
    (outbox w) (screen w ++ [e]).

Definition tick (w : World) : World :=
  mk_world (files w) (clock w) (S (ticks w)) (TWILIO_AVAILABLE w) (twilio w)
    (outbox w) (screen w).

Definition store (path : string) (content : FileContent) (w : World) : World :=
  mk_world (<[path := content]> (files w)) (clock w) (ticks w)
    (TWILIO_AVAILABLE w) (twilio w) (outbox w) (screen w).

Definition deliver (contact message : string) (w : World) : World :=
  mk_world (files w) (clock w) (ticks w) (TWILIO_AVAILABLE w) (twilio w)
    (outbox w ++ [(contact, message)]) (screen w).

Definition render (e : UIEvent) : M unit :=
  fun w => (Done tt, show e w).

Definition datetime_now : M datetime :=
  fun w => (Done (clock w (ticks w)), tick w).

Definition os_path_exists (path : string) : M bool :=
  fun w => (Done (bool_decide (is_Some (files w !! path))), w).

Definition read_file (path : string) : M FileContent :=
  fun w =>
    match files w !! path with
    | Some content => (Done content, w)
    | None => (Raised FileNotFoundError, w)
    end.

Definition write_file (path : string) (content : FileContent) : M unit :=
  fun w => (Done tt, store path content w).

(** [json.load(f)] on a file opened as text. *)
Definition json_load (content : FileContent) : M Dataset :=
  match content with
  | JsonDoc data => ret data
  | Malformed _ => raise JSONDecodeError
  | Xlsx _ => raise UnicodeDecodeError
  end.

Definition json_dump (data : Dataset) : FileContent := JsonDoc data.

(** [datetime.strptime(s, "%Y-%m-%d")] *)
Definition datetime_strptime (s : string) : M datetime :=
  match strptime s with
  | Some dt => ret dt
  | None => raise ValueError
  end.

(** The widgets. *)
Definition st_selectbox (ins : Inputs) (label : string) (options : list string) : string :=
  nth (selectbox ins label) options (hd EmptyString options).

(** [st.number_input(label, min_value=.., value=..)]: the number held by
    the field, which is [value] while the field is untouched.  The field
    keeps to its lower bound: the script is never handed a number below
    [min_value], and an entry below it counts as [min_value].  (Where the
    script calls it, on line 142, the bound and the default are both 1.) *)
Definition st_number_input (ins : Inputs) (label : string) (min_value value : Z) : Z :=
  match number_input ins label with
  | Some v => Z.max min_value v
  | None => value
  end.

(** ** The script *)

(** ---------- Helpers ---------- *)

Definition load_data : M Dataset :=
  found <- os_path_exists FILENAME ;;
  if found then
    f <- read_file FILENAME ;;
    json_load f
  else ret PyDict.empty.

Definition save_data (data : Dataset) : M unit :=
  write_file FILENAME (json_dump data).

(** Send SMS via Twilio if available, otherwise skip safely. *)
Definition send_sms (contact message : string) : M unit :=
  fun w =>
    if negb (TWILIO_AVAILABLE w) then (Done tt, w)
    else
      match twilio w contact message with
      | None => (Done tt, deliver contact message w)
      | Some e => render (st_error ("❌ SMS sending failed: " +:+ e)) w
      end.

(** The dict appended to [rows] for one payment of one member. *)
Definition report_row (code : string) (user : User) (pay : Payment) : Row :=
  [("Library Code", CStr code);
   ("Name", CStr (name user));
   ("Father's Name", CStr (father_name user));
   ("Address", CStr (address user));
   ("Contact", CStr (contact user));
   ("Admission Date", CStr (admission_date user));
   ("Payment Date", CStr (date pay));
   ("Amount Paid", CInt (amount pay))].

(** Generate the rows of the DataFrame for export: the two nested loops
    that append to [rows]. *)
Definition generate_report (data : Dataset) : DataFrame :=
  fold_left
    (fun (rows : DataFrame) (item : string * User) =>
       let '(code, user) := item in
       fold_left
         (fun (rows : DataFrame) (pay : Payment) => rows ++ [report_row code user pay])
         (payments user) rows)
    (PyDict.items data) [].

(** ---------- Main App ---------- *)

Definition menu : list string :=
  ["New User Registration"; "Existing User Login"; "Check Pending Payments";
   "Record Payment"; "Download Reports"].

(** --- New User --- *)
Definition new_user_registration (ins : Inputs) (data : Dataset) : M Dataset :=
  _ <- render (st_subheader "🆕 Register New User") ;;
  let name := text_input ins "Full Name" in
  let father_name := text_input ins "Father's Name" in
  let address := text_area ins "Address" in
  let email := text_input ins "Email" in
  let contact := text_input ins "Contact Number (with +91)" in
  let seatno := text_input ins "Seat Number" in
  now <- datetime_now ;;
  let admission_date := strftime now in
  if button ins "Register" then
    if py_not name || py_not father_name || py_not contact then
      _ <- render (st_error "⚠ Name, Father's Name, and Contact are required!") ;;
      ret data
    else
      let library_code := "L" +:+ str (PyDict.len data + 2025001) in
      let data :=
        PyDict.set data library_code
          (mk_user name father_name address email contact seatno
             admission_date admission_date
             [mk_payment admission_date MONTHLY_FEE]) in
      _ <- save_data data ;;
      _ <- render (st_success ("✅ User registered! Library Code: " +:+ library_code)) ;;
      let msg := "Welcome " +:+ name +:+ "! Your Library Code is " +:+ library_code
                 +:+ ". Admission Date: " +:+ admission_date
                 +:+ ". First payment of ₹" +:+ str MONTHLY_FEE +:+ " recorded." in
      _ <- send_sms contact msg ;;
      ret data
  else ret data.

(** --- Existing User --- *)
Definition existing_user_login (ins : Inputs) (data : Dataset) : M Dataset :=
  _ <- render (st_subheader "🔑 Login") ;;
  let library_code := text_input ins "Enter Library Code" in
  if button ins "Login" then
    match PyDict.get data library_code with
    | Some user => _ <- render (st_json user) ;; ret data
    | None => _ <- render (st_error "❌ Invalid Library Code") ;; ret data
    end
  else ret data.

(** --- Check Pending Payments --- *)

(** [months_due] as computed from [today] and the parsed [last_payment]. *)
Definition months_due (today last_payment : datetime) : Z :=
  (year today - year last_payment) * 12 + (month today - month last_payment).

(** The body of the loop over [data.items()]. *)
Definition check_pending_payment (today : datetime) (item : string * User) : M unit :=
  let '(code, user) := item in
  last_payment <- datetime_strptime (last_payment user) ;;
  let months_due := months_due today last_payment in
  if 0 <? months_due then
    let due_amount := months_due * MONTHLY_FEE in
    _ <- render (st_warning (name user +:+ " (Code: " +:+ code +:+ ") owes ₹"
                             +:+ str due_amount +:+ " (" +:+ str months_due +:+ " months)")) ;;
    let msg := "Dear " +:+ name user +:+ ", you have " +:+ str months_due
               +:+ " month(s) due. Total = ₹" +:+ str due_amount +:+ ". Please pay soon." in
    send_sms (contact user) msg
  else
    render (st_info (name user +:+ " (Code: " +:+ code +:+ ") is up to date ✅")).

Definition check_pending_payments (data : Dataset) : M Dataset :=
  _ <- render (st_subheader "💰 Pending Payments") ;;
  today <- datetime_now ;;
  _ <- for_each (PyDict.items data) (check_pending_payment today) ;;
  ret data.

(** --- Record Payment --- *)
Definition record_payment (ins : Inputs) (data : Dataset) : M Dataset :=
  _ <- render (st_subheader "💵 Record Payment") ;;
  let library_code := text_input ins "Enter Library Code" in
  if button ins "Fetch User" then
    match PyDict.get data library_code with
    | Some user =>
        _ <- render (st_write ("👤 " +:+ name user +:+ " (" +:+ library_code +:+ ")")) ;;
        last_payment <- datetime_strptime (last_payment user) ;;
        (* the year and the month are taken from two readings of the clock *)
        now_y <- datetime_now ;;
        now_m <- datetime_now ;;
        let months_due :=
          (year now_y - year last_payment) * 12 + (month now_m - month last_payment) in
        _ <- render (st_write ("📅 Months Due: " +:+ str months_due)) ;;
        let months_paid := st_number_input ins "Months Paying For" 1 1 in
        let total_amount := months_paid * MONTHLY_FEE in
        _ <- render (st_write ("💰 Payment Amount: ₹" +:+ str total_amount)) ;;
        if button ins "Confirm Payment" then
          now <- datetime_now ;;
          let new_payment_date := strftime now in
          (* [user] is the object stored in [data]: both updates happen in
             place, under the key where it already is *)
          let user := set_last_payment user new_payment_date in
          let user := append_payment user (mk_payment new_payment_date total_amount) in
          let data := PyDict.set data library_code user in
          _ <- save_data data ;;
          _ <- render (st_success ("✅ Payment of ₹" +:+ str total_amount +:+ " recorded.")) ;;
          let msg := "Payment received: ₹" +:+ str total_amount +:+ ". Thank you "
                     +:+ name user +:+ "! Next due will be next month." in
          _ <- send_sms (contact user) msg ;;
          ret data
        else ret data
    | None => _ <- render (st_error "❌ Invalid Library Code") ;; ret data
    end
  else ret data.

(** --- Download Reports --- *)

(** [df.empty] of the frame built from [rows]. *)
Definition df_empty (df : DataFrame) : bool :=
  match df with [] => true | _ :: _ => false end.

Definition download_reports (data : Dataset) : M Dataset :=
  _ <- render (st_subheader "📊 Download Reports") ;;
  let df := generate_report data in
  if negb (df_empty df) then
    _ <- render (st_dataframe df) ;;
    let csv := csv_bytes df in
    _ <- render (st_download_button "⬇ Download CSV Report" csv "library_report.csv") ;;
    _ <- write_file "library_report.xlsx" (Xlsx df) ;;
    f <- read_file "library_report.xlsx" ;;
    _ <- render (st_download_button "⬇ Download Excel Report" (file_handle f)
                   "library_report.xlsx") ;;
    ret data
  else
    _ <- render (st_info "ℹ No data available yet.") ;;
    ret data.

(** One run of the script; the value is [data] as it stands at the end. *)
Definition main (ins : Inputs) : M Dataset :=
  _ <- render (st_title "📚 ReaderSpace Library Management System") ;;
  data <- load_data ;;
  let choice := st_selectbox ins "Menu" menu in
  if String.eqb choice "New User Registration" then new_user_registration ins data
  else if String.eqb choice "Existing User Login" then existing_user_login ins data
  else if String.eqb choice "Check Pending Payments" then check_pending_payments data
  else if String.eqb choice "Record Payment" then record_payment ins data
  else if String.eqb choice "Download Reports" then download_reports data
  else ret data.

(** Consecutive runs: the world left by one run is the world the next one
    starts in. *)
Definition session (runs : list Inputs) (w : World) : World :=
  fold_left (fun w ins => snd (main ins w)) runs w.

(** ** What the statements below observe *)

(** [s.removeprefix(p)], when [s] starts with [p]. *)
Fixpoint strip_prefix (p s : string) : option string :=
  match p, s with
  | EmptyString, _ => Some s
  | String a p', String b s' => if Ascii.eqb a b then strip_prefix p' s' else None
  | String _ _, EmptyString => None
  end.

(** The member code a registration hands back: the one in its success
    message. *)
Definition announced_code (e : UIEvent) : option string :=
  match e with
  | st_success s => strip_prefix "✅ User registered! Library Code: " s
  | _ => None
  end.

Definition announced_codes (w : World) : list string :=
  omap announced_code (screen w).

(** The dataset a run starts from: what [load_data] returns. *)
Definition persisted (w : World) : outcome Dataset := fst (load_data w).

(** A run that submits a complete registration form. *)
Definition valid_registration (ins : Inputs) : bool :=
  String.eqb (st_selectbox ins "Menu" menu) "New User Registration"
  && button ins "Register"
  && negb (py_not (text_input ins "Full Name"))
  && negb (py_not (text_input ins "Father's Name"))
  && negb (py_not (text_input ins "Contact Number (with +91)")).

(** The record a registration run builds when the clock reads [now]. *)
Definition new_member (ins : Inputs) (now : datetime) : User :=
  mk_user (text_input ins "Full Name") (text_input ins "Father's Name")
    (text_area ins "Address") (text_input ins "Email")
    (text_input ins "Contact Number (with +91)") (text_input ins "Seat Number")
    (strftime now) (strftime now) [mk_payment (strftime now) MONTHLY_FEE].

(** The code of the [i]-th member registered into an empty store, and the
    datasets whose codes are the first ones of that sequence, in order. *)
Definition nth_code (i : nat) : string := "L" +:+ str (Z.of_nat i + 2025001).

Definition sequential (data : Dataset) : Prop :=
  PyDict.keys data = map nth_code (seq 0 (length data)).


(** What a run that is not a registration may do to [library_users.json],
    given the dataset [data] it loaded: nothing, or one assignment
    [data[k] = v] to a code [k] already in the dataset; and it hands back no
    code. *)
Definition store_kept (w w' : World) : Prop :=
  files w' !! FILENAME = files w !! FILENAME.

Definition member_updated (data : Dataset) (w' : World) : Prop :=
  exists k v, In k (PyDict.keys data)
              /\ files w' !! FILENAME = Some (JsonDoc (PyDict.set data k v)).

Definition quiet (data : Dataset) (w w' : World) : Prop :=
  announced_codes w' = announced_codes w
  /\ (store_kept w w' \/ member_updated data w').

(** ** A scenario to run *)

(** A form filled in by hand: the menu entry chosen, the text fields by
    label, the number field, the buttons pressed. *)
Definition form (choice : nat) (texts : list (string * string))
    (months : option Z) (pressed : list string) : Inputs :=
  mk_inputs (fun _ => choice)
    (fun label => default EmptyString (PyDict.get texts label))
    (fun label => default EmptyString (PyDict.get texts label))
    (fun _ => months)
    (fun label => existsb (String.eqb label) pressed).

(** No store yet, no SMS gateway; the clock reads 2025-01-10 once and
    2025-03-15 from then on. *)
Definition opening_day : World :=
  mk_world ∅
    (fun i => match i with
              | O => mk_datetime 2025 1 10
              | S _ => mk_datetime 2025 3 15
              end)
    0 false (fun _ _ => None) [] [].

Definition asha_registers : Inputs :=
  form 0 [("Full Name", "Asha"); ("Father's Name", "Ram");
          ("Contact Number (with +91)", "+911234567890")]
    None ["Register"].

Definition nameless_registers : Inputs :=
  form 0 [("Father's Name", "Ram"); ("Contact Number (with +91)", "+911234567890")]
    None ["Register"].

Definition asha_pays (months : Z) : Inputs :=
  form 3 [("Enter Library Code", "L2025001")] (Some months)
    ["Fetch User"; "Confirm Payment"].

Definition pending_check : Inputs := form 2 [] None [].

(** The world once Asha is registered. *)
Definition asha_registered : World := snd (main asha_registers opening_day).

Definition asha_fetches : Inputs :=
  form 3 [("Enter Library Code", "L2025001")] None ["Fetch User"].

(** The world once Asha has paid for two months. *)
Definition asha_paid : World := snd (main (asha_pays 2) asha_registered).

(** Asha's record as registered on 2025-01-10. *)
Definition asha : User :=
  mk_user "Asha" "Ram" EmptyString EmptyString "+911234567890" EmptyString
    "2025-01-10" "2025-01-10" [mk_payment "2025-01-10" 500].

(** ** Further observations *)

(** Two worlds that agree on everything but the SMS gateway, the outbox and
    the page; and a computation whose outcome and whose effect on the rest
    do not depend on those. *)
Definition same_but_sms (w1 w2 : World) : Prop :=
  files w1 = files w2 /\ clock w1 = clock w2 /\ ticks w1 = ticks w2.

Definition sms_blind {A : Type} (c : M A) : Prop :=
  forall w1 w2, same_but_sms w1 w2 ->
    fst (c w1) = fst (c w2) /\ same_but_sms (snd (c w1)) (snd (c w2)).

(** A computation that leaves the observation [f] of the world as it
    finds it, however it ends. *)
Definition keeps {X A : Type} (f : World -> X) (c : M A) : Prop :=
  forall w, f (snd (c w)) = f w.

(** The record of [user] after a payment of [paid] booked on the day
    [today]: the two assignments of the Confirm Payment block. *)
Definition payment_of (user : User) (today : datetime) (paid : Z) : User :=
  append_payment (set_last_payment user (strftime today))
    (mk_payment (strftime today) paid).

(** All that one run can be and do, given the dataset [data] it loaded: it
    ends with [data] or with an exception and keeps the store; or it
    registers a member; or it books a payment. *)
Definition run_kept (data : Dataset) (w : World) (r : outcome Dataset) (w' : World) : Prop :=
  store_kept w w' /\ (r = Done data \/ exists e, r = Raised e).

Definition run_registered (ins : Inputs) (data : Dataset) (w : World)
    (r : outcome Dataset) (w' : World) : Prop :=
  valid_registration ins = true
  /\ let data' := PyDict.set data (nth_code (length data))
                    (new_member ins (clock w (ticks w))) in
     r = Done data' /\ files w' !! FILENAME = Some (JsonDoc data').

Definition run_booked (ins : Inputs) (data : Dataset) (w : World)
    (r : outcome Dataset) (w' : World) : Prop :=
  exists user,
    st_selectbox ins "Menu" menu = "Record Payment"
    /\ button ins "Fetch User" = true
    /\ button ins "Confirm Payment" = true
    /\ PyDict.get data (text_input ins "Enter Library Code") = Some user
    /\ is_Some (strptime (last_payment user))
    /\ let data' := PyDict.set data (text_input ins "Enter Library Code")
                      (payment_of user (clock w (S (S (ticks w))))
                         (st_number_input ins "Months Paying For" 1 1 * MONTHLY_FEE)) in
       r = Done data' /\ files w' !! FILENAME = Some (JsonDoc data').

(** A run that confirms a payment for a member on file whose last payment
    date can be read: the conditions under which the Confirm Payment block
    is reached. *)
Definition confirmed_payment (ins : Inputs) (data : Dataset) : bool :=
  String.eqb (st_selectbox ins "Menu" menu) "Record Payment"
  && button ins "Fetch User"
  && button ins "Confirm Payment"
  && match PyDict.get data (text_input ins "Enter Library Code") with
     | Some user =>
         match strptime (last_payment user) with
         | Some _ => true
         | None => false
         end
     | None => false
     end.

(** A ledger entry for a whole number of months, one at least; a ledger
    made of such entries. *)
Definition months_paid (p : Payment) : Prop :=
  exists m, 1 <= m /\ amount p = m * MONTHLY_FEE.


(** The shape every record written by the script has: the ledger starts
    with the registration fee booked on the admission date, and the last
    payment date is the date of the last entry of the ledger. *)
Definition ledger_kept (user : User) : Prop :=
  (exists rest,
     payments user = mk_payment (admission_date user) MONTHLY_FEE :: rest)
  /\ date <$> last (payments user) = Some (last_payment user).

(** The last payment date can be read back. *)
Definition date_readable (user : User) : Prop :=
  is_Some (strptime (last_payment user)).

Definition every_member (P : User -> Prop) (data : Dataset) : Prop :=
  Forall P (map snd data).

(** The members the pending check finds overdue on the day [today], with
    their months due, and the reminder it sends to each. *)
Definition overdue (today : datetime) (item : string * User) : option (User * Z) :=
  match strptime (last_payment (snd item)) with
  | Some last_payment =>
      if 0 <? months_due today last_payment
      then Some (snd item, months_due today last_payment)
      else None
  | None => None
  end.

Definition reminder (due : User * Z) : string * string :=
  (contact (fst due),
   "Dear " +:+ name (fst due) +:+ ", you have " +:+ str (snd due)
   +:+ " month(s) due. Total = ₹" +:+ str (snd due * MONTHLY_FEE)
   +:+ ". Please pay soon.").

(** A gateway that is there and takes every message. *)
Definition gateway_accepts (w : World) : Prop :=
  TWILIO_AVAILABLE w = true /\ forall c m, twilio w c m = None.

(** ** More of the scenario *)

(** The same day with a gateway that takes every message, and with one
    that refuses every message. *)
Definition with_gateway (answer : option string) (w : World) : World :=
  mk_world (files w) (clock w) (ticks w) true (fun _ _ => answer)
    (outbox w) (screen w).

Definition asha_logs_in : Inputs :=
  form 1 [("Enter Library Code", "L2025001")] None ["Login"].

Definition stranger_logs_in : Inputs :=
  form 1 [("Enter Library Code", "L2025999")] None ["Login"].

Definition asha_confirms_only : Inputs :=
  form 3 [("Enter Library Code", "L2025001")] (Some 2) ["Confirm Payment"].


Definition download : Inputs := form 4 [] None [].

(** A store from which a member was removed by hand: one record, filed
    under the second code. *)
Definition ram : User :=
  mk_user "Ram" "Shyam" EmptyString EmptyString "+910000000000" EmptyString
    "2025-01-05" "2025-01-05" [mk_payment "2025-01-05" 500].

Definition after_removal : World :=
  store FILENAME (JsonDoc [("L2025002", ram)]) opening_day.

(** A store in which a date was damaged by hand. *)
Definition damaged : World :=
  store FILENAME
    (JsonDoc [("L2025001", asha);
              ("L2025002", set_last_payment ram "05/01/2025");
              ("L2025003", ram)])
    (tick opening_day).

(** Reading a row of the report back: the payment it stands for, when the
    row belongs to the member [code]. *)
Definition ledger_entry (code : string) (row : Row) : option Payment :=
  match PyDict.get row "Library Code", PyDict.get row "Payment Date",
        PyDict.get row "Amount Paid" with
  | Some (CStr c), Some (CStr d), Some (CInt a) =>
      if String.eqb c code then Some (mk_payment d a) else None
  | _, _, _ => None
  end.

(** * Properties *)

(** ** Dates *)

Section CalendarFacts.

(** Splits a goal about a small positive number into its cases. *)
Ltac small_cases k :=
  destruct k as [|k|k]; try lia;
  do 6 (try (destruct k as [k|k|]; try lia)); try reflexivity.

Lemma any_digit_char (k : Z) (rest : string) :
  0 <= k <= 9 -> any_digit (String (digit_char k) rest) = Some (k, rest).
Proof. intros Hk. small_cases k. Qed.

Lemma four_digits_value (y : Z) :
  0 <= y <= 9999 ->
  10 * (10 * (10 * (y / 1000 mod 10) + y / 100 mod 10) + y / 10 mod 10)
  + y mod 10 = y.
Proof. intros Hy. Z.div_mod_to_equations. lia. Qed.

Lemma parse_month_two_digits (m : Z) (rest : string) :
  1 <= m <= 12 -> parse_month (two_digits m +:+ rest) = Some (m, rest).
Proof. intros Hm. small_cases m. Qed.

Lemma parse_day_two_digits (d : Z) (rest : string) :
  1 <= d <= 31 -> parse_day (two_digits d +:+ rest) = Some (d, rest).
Proof. intros Hd. small_cases d. Qed.

Lemma days_in_month_le_31 (y m : Z) : days_in_month y m <= 31.
Proof.
  unfold days_in_month.
  destruct (m =? 2); [destruct (is_leap y); lia|].
  destruct ((m =? 4) || (m =? 6) || (m =? 9) || (m =? 11)); lia.
Qed.

Lemma valid_date_bounds (y m d : Z) :
  valid_date y m d = true ->
  1 <= y <= 9999 /\ 1 <= m <= 12 /\ 1 <= d <= 31.
Proof.
  unfold valid_date. intros H.
  repeat (apply andb_prop in H; destruct H as [H ?]).
  pose proof (days_in_month_le_31 y m). lia.
Qed.

Lemma append_String (a : ascii) (s t : string) :
  String a s +:+ t = String a (s +:+ t).
Proof. reflexivity. Qed.

Lemma append_Empty (t : string) : EmptyString +:+ t = t.
Proof. reflexivity. Qed.

Lemma parse_year_four_digits (y : Z) (rest : string) :
  0 <= y <= 9999 -> parse_year (four_digits y +:+ rest) = Some (y, rest).
Proof.
  intros Hy.
  assert (Hq : forall k, 0 <= k mod 10 <= 9)
    by (intros k; pose proof (Z.mod_pos_bound k 10); lia).
  unfold four_digits, parse_year, followed_by.
  rewrite !append_String, append_Empty.
  rewrite !any_digit_char by apply Hq.
  now rewrite four_digits_value.
Qed.

(** Parsing what [strftime] printed gives the date back. *)
Lemma strptime_strftime (dt : datetime) :
  valid dt = true -> strptime (strftime dt) = Some dt.
Proof.
  destruct dt as [y m d]. unfold valid. cbn [year month day]. intros Hv.
  destruct (valid_date_bounds _ _ _ Hv) as (Hy & Hm & Hd).
  unfold strftime, strptime. cbn [year month day].
  rewrite parse_year_four_digits by lia.
  rewrite append_String, append_Empty. cbn [dash Ascii.eqb Bool.eqb].
  rewrite parse_month_two_digits by lia.
  rewrite append_String, append_Empty. cbn [dash Ascii.eqb Bool.eqb].
  replace (two_digits d) with (two_digits d +:+ EmptyString)
    by (unfold two_digits; now rewrite !append_String, append_Empty).
  rewrite parse_day_two_digits by lia.
  now rewrite Hv.
Qed.

End CalendarFacts.

Example strptime_padded : strptime "2024-01-31" = Some (mk_datetime 2024 1 31).
Proof. reflexivity. Qed.

Example strptime_unpadded : strptime "2025-3-7" = Some (mk_datetime 2025 3 7).
Proof. reflexivity. Qed.

Example strptime_not_a_day : strptime "2023-02-29" = None.
Proof. reflexivity. Qed.

Example strptime_other_digits :
  strptime "２０２５-01-1５" = Some (mk_datetime 2025 1 15).
Proof. reflexivity. Qed.

Example strptime_month_in_ascii_only : strptime "2025-０1-10" = None.
Proof. reflexivity. Qed.

Example strptime_unconverted_data : strptime "2025-01-32" = None.
Proof. reflexivity. Qed.

Example strftime_pads : strftime (mk_datetime 2025 3 7) = "2025-03-07".
Proof. reflexivity. Qed.

(** ** Dictionaries *)

Section DictFacts.
Context {V : Type}.
Implicit Types (d : PyDict.dict V) (k : string) (v : V).

Lemma get_set_eq d k v : PyDict.get (PyDict.set d k v) k = Some v.
Proof.
  induction d as [|[k' v'] d IH]; simpl.
  - now rewrite String.eqb_refl.
  - destruct (String.eqb k' k) eqn:E; simpl; rewrite E; auto.
Qed.

Lemma get_set_ne d k k' v :
  k <> k' -> PyDict.get (PyDict.set d k v) k' = PyDict.get d k'.
Proof.
  intros Hne. induction d as [|[k0 v0] d IH]; simpl.
  - apply String.eqb_neq in Hne. now rewrite Hne.
  - destruct (String.eqb k0 k) eqn:E; simpl.
    + apply String.eqb_eq in E. subst k0.
      apply String.eqb_neq in Hne. now rewrite Hne.
    + now rewrite IH.
Qed.

Lemma get_None_keys d k : PyDict.get d k = None <-> ~ In k (PyDict.keys d).
Proof.
  induction d as [|[k' v'] d IH]; simpl.
  - tauto.
  - destruct (String.eqb k' k) eqn:E.
    + apply String.eqb_eq in E. split; [discriminate | tauto].
    + apply String.eqb_neq in E. rewrite IH. tauto.
Qed.

Lemma get_Some_keys d k v : PyDict.get d k = Some v -> In k (PyDict.keys d).
Proof.
  intros H. destruct (in_dec String.string_dec k (PyDict.keys d)) as [|Hn]; [assumption|].
  apply get_None_keys in Hn. congruence.
Qed.

(** Assigning to a key that is present keeps every key where it is. *)
Lemma keys_set_present d k v :
  In k (PyDict.keys d) -> PyDict.keys (PyDict.set d k v) = PyDict.keys d.
Proof.
  induction d as [|[k' v'] d IH]; simpl; [tauto|].
  intros [->|Hin].
  - now rewrite String.eqb_refl.
  - destruct (String.eqb k' k); simpl; [reflexivity|].
    f_equal. now apply IH.
Qed.

(** Assigning to a new key appends it. *)
Lemma set_fresh d k v :
  ~ In k (PyDict.keys d) -> PyDict.set d k v = d ++ [(k, v)].
Proof.
  induction d as [|[k' v'] d IH]; simpl; [reflexivity|].
  intros Hn. destruct (String.eqb k' k) eqn:E.
  - apply String.eqb_eq in E. tauto.
  - f_equal. apply IH. tauto.
Qed.

(** No assignment removes a key. *)
Lemma keys_set_incl d k v k' :
  In k' (PyDict.keys d) -> In k' (PyDict.keys (PyDict.set d k v)).
Proof.
  intros Hin. destruct (in_dec String.string_dec k (PyDict.keys d)) as [Hk|Hk].
  - now rewrite keys_set_present.
  - rewrite set_fresh by assumption. unfold PyDict.keys in *.
    rewrite map_app. apply in_or_app. now left.
Qed.

End DictFacts.

(** ** Running the script *)

(** Runs the monad and the primitive effects on a world given field by
    field. *)
Ltac run_in H :=
  cbv beta iota zeta delta
    [bind ret raise render datetime_now save_data write_file json_dump
     show tick store deliver orb andb negb
     files clock ticks TWILIO_AVAILABLE twilio outbox screen] in H.

Section Effects.
Implicit Types (w : World) (data : Dataset).

Lemma load_data_run w :
  load_data w =
  (match files w !! FILENAME with
   | None => Done PyDict.empty
   | Some (JsonDoc data) => Done data
   | Some (Malformed _) => Raised JSONDecodeError
   | Some (Xlsx _) => Raised UnicodeDecodeError
   end, w).
Proof.
  unfold load_data, os_path_exists, read_file, json_load, bind, ret, raise.
  destruct (files w !! FILENAME) as [[]|] eqn:E; simpl; rewrite ?E; reflexivity.
Qed.

Lemma load_data_persisted w : load_data w = (persisted w, w).
Proof. unfold persisted. now rewrite load_data_run. Qed.

Lemma persisted_files w w' : files w = files w' -> persisted w = persisted w'.
Proof. unfold persisted. rewrite !load_data_run. simpl. now intros ->. Qed.

Lemma persisted_saved w data :
  files w !! FILENAME = Some (JsonDoc data) -> persisted w = Done data.
Proof. unfold persisted. rewrite load_data_run. simpl. now intros ->. Qed.

(** What [send_sms] can and cannot touch. *)
Lemma send_sms_cases c m w :
  send_sms c m w = (Done tt, w)
  \/ send_sms c m w = (Done tt, deliver c m w)
  \/ exists e, send_sms c m w
               = (Done tt, show (st_error ("❌ SMS sending failed: " +:+ e)) w).
Proof.
  unfold send_sms. destruct (TWILIO_AVAILABLE w); [|now left].
  destruct (twilio w c m) as [e|]; [right; right; now exists e | right; now left].
Qed.

Lemma send_sms_done c m w : fst (send_sms c m w) = Done tt.
Proof. destruct (send_sms_cases c m w) as [H|[H|[e H]]]; now rewrite H. Qed.

Lemma send_sms_eta c m w :
  send_sms c m w = (Done tt, snd (send_sms c m w)).
Proof.
  rewrite <- (send_sms_done c m w). now destruct (send_sms c m w).
Qed.

Lemma send_sms_files c m w : files (snd (send_sms c m w)) = files w.
Proof. destruct (send_sms_cases c m w) as [H|[H|[e H]]]; now rewrite H. Qed.

Lemma title_announced s w :
  announced_codes (show (st_title s) w) = announced_codes w.
Proof. unfold announced_codes, show. cbn [screen]. rewrite omap_app. apply app_nil_r. Qed.

Lemma send_sms_announced c m w :
  announced_codes (snd (send_sms c m w)) = announced_codes w.
Proof.
  destruct (send_sms_cases c m w) as [H|[H|[e H]]]; rewrite H; try reflexivity.
  unfold announced_codes. simpl. rewrite omap_app. simpl. apply app_nil_r.
Qed.

End Effects.

(** Names the outcome [r] and the world [w'] of the run [c] in the goal and
    evaluates the run up to its call of [send_sms]. *)
Ltac run_to_sms c r w' E :=
  destruct c as [r w'] eqn:E; cbn [fst snd]; run_in E;
  rewrite send_sms_eta in E; injection E as <- <-.

(** Evaluates the run in [E], splitting on every test it meets, and leaves
    one goal for each way through it. *)
Ltac run_cases E :=
  run_in E;
  repeat (match type of E with
          | context [match ?b with true => _ | false => _ end] => destruct b eqn:?
          | context [match ?o with Some _ => _ | None => _ end] => destruct o eqn:?
          end; run_in E);
  try rewrite send_sms_eta in E; injection E as <- <-.

Section Runs.
Implicit Types (w : World) (data : Dataset) (ins : Inputs).

Lemma strip_prefix_app (p s : string) : strip_prefix p (p +:+ s) = Some s.
Proof.
  induction p as [|a p IH]; simpl; [reflexivity|].
  now rewrite Ascii.eqb_refl.
Qed.

(** Every run starts by drawing the title and loading the store; the menu
    choice then selects one branch. *)
Lemma main_raises ins w e :
  persisted w = Raised e ->
  main ins w = (Raised e, show (st_title "📚 ReaderSpace Library Management System") w).
Proof.
  intros Hp. unfold main, bind at 1 2, render.
  rewrite load_data_persisted.
  rewrite (persisted_files _ w) by reflexivity. now rewrite Hp.
Qed.

Lemma main_branch ins w data :
  persisted w = Done data ->
  let w1 := show (st_title "📚 ReaderSpace Library Management System") w in
  let choice := st_selectbox ins "Menu" menu in
  main ins w =
  if String.eqb choice "New User Registration" then new_user_registration ins data w1
  else if String.eqb choice "Existing User Login" then existing_user_login ins data w1
  else if String.eqb choice "Check Pending Payments" then check_pending_payments data w1
  else if String.eqb choice "Record Payment" then record_payment ins data w1
  else if String.eqb choice "Download Reports" then download_reports data w1
  else (Done data, w1).
Proof.
  intros Hp. unfold main, bind at 1 2, render.
  rewrite load_data_persisted.
  rewrite (persisted_files _ w) by reflexivity. rewrite Hp.
  repeat match goal with |- context [String.eqb ?a ?b] => destruct (String.eqb a b) end;
    reflexivity.
Qed.

(** A complete registration form. *)
Lemma registration_run ins w data :
  persisted w = Done data ->
  valid_registration ins = true ->
  let code := "L" +:+ str (PyDict.len data + 2025001) in
  let data' := PyDict.set data code (new_member ins (clock w (ticks w))) in
  let w' := snd (main ins w) in
  fst (main ins w) = Done data'
  /\ files w' = <[FILENAME := JsonDoc data']> (files w)
  /\ announced_codes w' = announced_codes w ++ [code].
Proof.
  intros Hp Hv. unfold valid_registration in Hv.
  repeat (apply andb_prop in Hv; destruct Hv as [Hv ?]).
  rewrite (main_branch _ _ _ Hp). cbv zeta. rewrite Hv.
  unfold new_user_registration, new_member.
  repeat match goal with
         | H : negb ?b = true |- _ => apply negb_true_iff in H; rewrite H
         | H : button _ _ = true |- _ => rewrite H
         end.
  clear. destruct w as [fs ck tk ta tw ob sc].
  match goal with |- context [fst ?c] => run_to_sms c r w' E end.
  cbn [fst snd]. rewrite send_sms_files, send_sms_announced.
  unfold announced_codes. cbn [files screen].
  rewrite !omap_app. cbn [omap list_omap announced_code].
  rewrite strip_prefix_app, !app_nil_r. repeat split; reflexivity.
Qed.

End Runs.

(** ** Payments *)

Section Payments.
Implicit Types (w : World) (data : Dataset) (ins : Inputs) (user : User).

(** A confirmed payment for a member that is found. *)
Lemma payment_run ins w data user lp :
  persisted w = Done data ->
  st_selectbox ins "Menu" menu = "Record Payment" ->
  button ins "Fetch User" = true ->
  button ins "Confirm Payment" = true ->
  PyDict.get data (text_input ins "Enter Library Code") = Some user ->
  strptime (last_payment user) = Some lp ->
  let code := text_input ins "Enter Library Code" in
  let as_of := clock w (S (S (ticks w))) in
  let paid := mk_payment (strftime as_of)
                (st_number_input ins "Months Paying For" 1 1 * MONTHLY_FEE) in
  let user' := append_payment (set_last_payment user (strftime as_of)) paid in
  let data' := PyDict.set data code user' in
  fst (main ins w) = Done data'
  /\ files (snd (main ins w)) = <[FILENAME := JsonDoc data']> (files w).
Proof.
  intros Hp Hc Hf Hcf Hg Hl. cbv zeta.
  rewrite (main_branch _ _ _ Hp). cbv zeta. rewrite Hc.
  simpl (String.eqb _ _).
  unfold record_payment, datetime_strptime. rewrite Hf, Hg, Hl, Hcf.
  clear. destruct w as [fs ck tk ta tw ob sc].
  match goal with |- context [fst ?c] => run_to_sms c r w' E end.
  rewrite send_sms_files. split; reflexivity.
Qed.

Lemma strptime_valid (s : string) (dt : datetime) :
  strptime s = Some dt -> valid dt = true.
Proof.
  unfold strptime.
  destruct (parse_year s) as [[y s1]|]; [|discriminate].
  destruct (dash s1) as [s2|]; [|discriminate].
  destruct (parse_month s2) as [[m s3]|]; [|discriminate].
  destruct (dash s3) as [s4|]; [|discriminate].
  destruct (parse_day s4) as [[d [|c rest]]|]; try discriminate.
  destruct (valid_date y m d) eqn:E; [|discriminate].
  intros [= <-]. exact E.
Qed.

(** Right after a payment nothing is due. *)
Lemma months_due_same_date (dt : datetime) : months_due dt dt = 0.
Proof. unfold months_due. lia. Qed.

End Payments.

(** ** The store and the codes handed back, branch by branch *)

(** The message of a recorded payment is not taken for a code. *)
Lemma payment_not_announced (s : string) :
  announced_code (st_success ("✅ Payment of ₹" +:+ s)) = None.
Proof. reflexivity. Qed.

(** Closes a goal [quiet data w w'] in which [w'] is given field by field,
    possibly under a last call of [send_sms]. *)
Ltac quiet_done :=
  split;
  [ rewrite ?send_sms_announced; unfold announced_codes; cbn [screen];
    rewrite ?omap_app; cbn [omap list_omap];
    rewrite ?payment_not_announced; cbn [announced_code];
    rewrite ?app_nil_r; reflexivity
  | unfold store_kept, member_updated; rewrite ?send_sms_files; cbn [files];
    first [ left; reflexivity
          | left; now apply lookup_insert_ne
          | right; eexists _, _; split; [eassumption | apply lookup_insert_eq] ] ].

Section Branches.
Implicit Types (w : World) (data : Dataset) (ins : Inputs).

Lemma quiet_refl data w : quiet data w w.
Proof. split; [reflexivity | now left]. Qed.

Lemma quiet_trans data w1 w2 w3 :
  announced_codes w2 = announced_codes w1 -> files w2 = files w1 ->
  quiet data w2 w3 -> quiet data w1 w3.
Proof.
  unfold quiet, store_kept. intros Ha Hf [Ha' Hs]. rewrite <- Ha, <- Hf. auto.
Qed.

Lemma existing_user_login_quiet ins data w :
  quiet data w (snd (existing_user_login ins data w)).
Proof.
  destruct w as [fs ck tk ta tw ob sc].
  destruct (existing_user_login _ _ _) as [r w'] eqn:E. cbn [snd].
  unfold existing_user_login in E. run_cases E; quiet_done.
Qed.

Lemma check_pending_payment_quiet today item w :
  announced_codes (snd (check_pending_payment today item w)) = announced_codes w
  /\ files (snd (check_pending_payment today item w)) = files w.
Proof.
  destruct item as [code user]. destruct w as [fs ck tk ta tw ob sc].
  destruct (check_pending_payment _ _ _) as [r w'] eqn:E. cbn [snd].
  unfold check_pending_payment, datetime_strptime in E.
  destruct (strptime (last_payment user)); run_cases E;
    (split; [|rewrite ?send_sms_files; reflexivity]);
    rewrite ?send_sms_announced; unfold announced_codes; cbn [screen];
    rewrite ?omap_app; cbn [omap list_omap announced_code];
    rewrite ?app_nil_r; reflexivity.
Qed.

(** A loop keeps what every round of it keeps. *)
Lemma for_each_invariant {A : Type} (P : World -> Prop)
    (body : A -> M unit) (xs : list A) :
  (forall x w, P w -> P (snd (body x w))) ->
  forall w, P w -> P (snd (for_each xs body w)).
Proof.
  intros Hb. induction xs as [|x xs IH]; intros w Hw; simpl; [assumption|].
  unfold bind. specialize (Hb x w Hw).
  destruct (body x w) as [[[]|e] w1]; cbn [snd] in *; auto.
Qed.

Lemma check_pending_payments_quiet data w :
  quiet data w (snd (check_pending_payments data w)).
Proof.
  set (P := fun w' => announced_codes w' = announced_codes w /\ files w' = files w).
  assert (HP : P (snd (check_pending_payments data w))).
  { unfold check_pending_payments, bind, render, datetime_now, ret.
    match goal with |- context [for_each ?xs (check_pending_payment ?t) ?w0] =>
      assert (H0 : P (snd (for_each xs (check_pending_payment t) w0)));
      [ apply for_each_invariant;
        [ intros x w1 [Ha Hf];
          destruct (check_pending_payment_quiet t x w1) as [Ha' Hf'];
          split; congruence
        | split; [|reflexivity];
          unfold announced_codes, tick, show; cbn [screen];
          rewrite omap_app; apply app_nil_r ]
      | destruct (for_each xs (check_pending_payment t) w0) as [[[]|e] w1];
        exact H0 ]
    end. }
  destruct HP as [Ha Hf]. split; [exact Ha|]. left. unfold store_kept. now rewrite Hf.
Qed.

Lemma record_payment_quiet ins data w :
  quiet data w (snd (record_payment ins data w)).
Proof.
  destruct w as [fs ck tk ta tw ob sc].
  destruct (record_payment _ _ _) as [r w'] eqn:E. cbn [snd].
  unfold record_payment, datetime_strptime in E.
  destruct (button ins "Fetch User"); [|run_cases E; quiet_done].
  destruct (PyDict.get data _) as [user|] eqn:Hg; [|run_cases E; quiet_done].
  apply get_Some_keys in Hg.
  destruct (strptime (last_payment user)); [|run_cases E; quiet_done].
  run_cases E; quiet_done.
Qed.

Lemma download_reports_quiet data w :
  quiet data w (snd (download_reports data w)).
Proof.
  destruct w as [fs ck tk ta tw ob sc].
  destruct (download_reports _ _) as [r w'] eqn:E. cbn [snd].
  unfold download_reports, read_file in E.
  destruct (negb _); [|run_cases E; quiet_done].
  run_in E. rewrite lookup_insert_eq in E. injection E as <- <-.
  quiet_done.
Qed.

(** The registration branch when the form is not submitted or not
    complete. *)
Lemma new_user_registration_quiet ins data w :
  button ins "Register"
  && negb (py_not (text_input ins "Full Name"))
  && negb (py_not (text_input ins "Father's Name"))
  && negb (py_not (text_input ins "Contact Number (with +91)")) = false ->
  quiet data w (snd (new_user_registration ins data w)).
Proof.
  intros Hno. destruct w as [fs ck tk ta tw ob sc].
  destruct (new_user_registration _ _ _) as [r w'] eqn:E. cbn [snd].
  unfold new_user_registration in E. revert Hno.
  run_cases E; intros Hno; try quiet_done.
  repeat match goal with
         | H : context [py_not ?s] |- _ => destruct (py_not s)
         end;
    cbn [andb negb] in Hno; discriminate.
Qed.

(** A run that is not a complete registration hands back no code and
    leaves the codes of the store as they are. *)
Lemma main_quiet ins w data :
  persisted w = Done data ->
  valid_registration ins = false ->
  quiet data w (snd (main ins w)).
Proof.
  intros Hp Hv. unfold valid_registration in Hv.
  rewrite (main_branch _ _ _ Hp). cbv zeta.
  apply quiet_trans
    with (w2 := show (st_title "📚 ReaderSpace Library Management System") w);
    [apply title_announced | reflexivity |].
  destruct (String.eqb (st_selectbox ins "Menu" menu) "New User Registration")
    eqn:Hc.
  { apply new_user_registration_quiet. exact Hv. }
  repeat match goal with
         | |- context [String.eqb ?a ?b] => destruct (String.eqb a b)
         end;
    auto using existing_user_login_quiet, check_pending_payments_quiet,
      record_payment_quiet, download_reports_quiet, quiet_refl.
Qed.

(** Whatever the inputs, a run that starts from the dataset [data] leaves
    a store that decodes to [data] or to [data] after one assignment. *)
Lemma main_store ins w data :
  persisted w = Done data ->
  persisted (snd (main ins w)) = Done data
  \/ exists k v, persisted (snd (main ins w)) = Done (PyDict.set data k v).
Proof.
  intros Hp. destruct (valid_registration ins) eqn:Hv.
  - right. destruct (registration_run ins w data Hp Hv) as (_ & Hf & _).
    eexists _, _. apply persisted_saved. rewrite Hf. apply lookup_insert_eq.
  - destruct (main_quiet ins w data Hp Hv) as [_ [Hk|(k & v & _ & Hk)]].
    + left. rewrite <- Hp. unfold persisted. rewrite !load_data_run.
      cbn [fst]. now rewrite Hk.
    + right. exists k, v. now apply persisted_saved.
Qed.

Lemma main_keeps_codes ins w data :
  persisted w = Done data ->
  exists data',
    persisted (snd (main ins w)) = Done data'
    /\ forall code, In code (PyDict.keys data) -> In code (PyDict.keys data').
Proof.
  intros Hp. destruct (main_store ins w data Hp) as [H|(k & v & H)].
  - exists data. auto.
  - exists (PyDict.set data k v). split; [assumption|].
    intros code. apply keys_set_incl.
Qed.

End Branches.

(** ** Member codes *)

Section Codes.
Implicit Types (w : World) (data : Dataset) (ins : Inputs).

Lemma nth_code_inj (i j : nat) : nth_code i = nth_code j -> i = j.
Proof.
  unfold nth_code, str. intros H. injection H as H.
  rewrite !append_Empty in H. apply pretty_Z_inj in H. lia.
Qed.

Lemma nth_code_len data :
  "L" +:+ str (PyDict.len data + 2025001) = nth_code (length data).
Proof. reflexivity. Qed.

Lemma nth_codes_NoDup (a n : nat) : List.NoDup (map nth_code (seq a n)).
Proof.
  apply Finite.Injective_map_NoDup; [|apply List.seq_NoDup].
  intros i j. apply nth_code_inj.
Qed.

(** In a sequential dataset the next code is not taken yet. *)
Lemma sequential_fresh data :
  sequential data -> ~ In (nth_code (length data)) (PyDict.keys data).
Proof.
  unfold sequential. intros -> Hin.
  apply in_map_iff in Hin. destruct Hin as (i & Hi & Hin).
  apply nth_code_inj in Hi. apply in_seq in Hin. lia.
Qed.

(** A registration keeps the dataset sequential. *)
Lemma sequential_set data (user : User) :
  sequential data ->
  let data' := PyDict.set data (nth_code (length data)) user in
  sequential data' /\ length data' = S (length data).
Proof.
  intros Hs. cbv zeta.
  rewrite set_fresh by now apply sequential_fresh.
  unfold sequential, PyDict.keys in *.
  rewrite map_app, length_app, Hs. simpl.
  rewrite Nat.add_1_r, seq_S, map_app.
  split; reflexivity.
Qed.

(** So does an assignment to a code that is there. *)
Lemma sequential_update data (k : string) (user : User) :
  sequential data -> In k (PyDict.keys data) ->
  let data' := PyDict.set data k user in
  sequential data' /\ length data' = length data.
Proof.
  intros Hs Hin. cbv zeta.
  pose proof (keys_set_present data k user Hin) as Hk.
  assert (Hlen : length (PyDict.set data k user) = length data).
  { apply (f_equal (@length string)) in Hk. unfold PyDict.keys in Hk.
    now rewrite !length_map in Hk. }
  split; [|exact Hlen]. unfold sequential. now rewrite Hk, Hlen.
Qed.

Lemma persisted_kept w w' : store_kept w w' -> persisted w' = persisted w.
Proof.
  unfold store_kept, persisted. rewrite !load_data_run. cbn [fst]. now intros ->.
Qed.

(** One run, whatever its inputs, from a sequential store: a complete
    registration hands back the next code, any other run hands back
    none. *)
Lemma main_step ins w data :
  persisted w = Done data ->
  sequential data ->
  let new := if valid_registration ins then [nth_code (length data)] else [] in
  exists data',
    persisted (snd (main ins w)) = Done data'
    /\ sequential data'
    /\ length data' = (length data + length new)%nat
    /\ announced_codes (snd (main ins w)) = announced_codes w ++ new.
Proof.
  intros Hp Hs. cbv zeta. destruct (valid_registration ins) eqn:Hv.
  - destruct (registration_run ins w data Hp Hv) as (_ & Hf & Ha).
    rewrite nth_code_len in Hf, Ha.
    destruct (sequential_set data (new_member ins (clock w (ticks w))) Hs)
      as (Hs' & Hl').
    eexists. split; [apply persisted_saved; rewrite Hf; apply lookup_insert_eq|].
    split; [exact Hs'|]. split; [rewrite Hl'; simpl; lia | exact Ha].
  - destruct (main_quiet ins w data Hp Hv) as [Ha [Hk|(k & v & Hin & Hk)]].
    + exists data. rewrite (persisted_kept _ _ Hk), Ha, app_nil_r. simpl.
      rewrite Nat.add_0_r. auto.
    + destruct (sequential_update data k v Hs Hin) as (Hs' & Hl').
      eexists. split; [apply persisted_saved; exact Hk|].
      split; [exact Hs'|]. rewrite Hl', Ha, app_nil_r. simpl.
      rewrite Nat.add_0_r. auto.
Qed.

Lemma session_cons ins (runs : list Inputs) w :
  session (ins :: runs) w = session runs (snd (main ins w)).
Proof. reflexivity. Qed.

(** Any number of runs, one after the other, from a sequential store:
    the codes handed back are the next ones of the sequence, one for each
    complete registration. *)
Lemma session_codes (runs : list Inputs) : forall w data,
  persisted w = Done data ->
  sequential data ->
  exists data',
    persisted (session runs w) = Done data'
    /\ sequential data'
    /\ announced_codes (session runs w)
       = announced_codes w
         ++ map nth_code (seq (length data)
                            (length (List.filter valid_registration runs))).
Proof.
  induction runs as [|ins runs IH]; intros w data Hp Hs.
  - exists data. simpl. rewrite app_nil_r. auto.
  - destruct (main_step ins w data Hp Hs) as (data1 & Hp1 & Hs1 & Hl1 & Ha1).
    destruct (IH _ _ Hp1 Hs1) as (data' & Hp' & Hs' & Ha').
    exists data'. rewrite session_cons.
    split; [exact Hp'|]. split; [exact Hs'|].
    rewrite Ha', Ha1, Hl1, <- app_assoc. f_equal.
    cbn [List.filter]. destruct (valid_registration ins); cbn [length app].
    + cbn [seq map]. now rewrite Nat.add_1_r.
    + now rewrite Nat.add_0_r.
Qed.

End Codes.

(** C1.  A complete registration against a dataset of N members hands back
    the code "L" followed by 2025001 + N and files the new record under it.
    Starting from a store whose codes are the first N of that sequence (an
    empty or absent store in particular), the codes handed back in the
    course of any runs of the script, one for each complete registration
    among them, are pairwise distinct, and none of them is a code already
    in the store. *)
Theorem member_code_allocation
    (ins : Inputs) (w : World) (data : Dataset) (runs : list Inputs) :
  persisted w = Done data ->
  valid_registration ins = true ->
  let N := PyDict.len data in
  let code := "L" +:+ str (2025001 + N) in
  (announced_codes (snd (main ins w)) = announced_codes w ++ [code]
   /\ exists user,
        fst (main ins w) = Done (PyDict.set data code user)
        /\ persisted (snd (main ins w)) = Done (PyDict.set data code user)
        /\ PyDict.get (PyDict.set data code user) code = Some user)
  /\ (sequential data ->
      exists codes,
        announced_codes (session runs w) = announced_codes w ++ codes
        /\ length codes = length (List.filter valid_registration runs)
        /\ List.NoDup codes
        /\ (forall c, In c codes -> ~ In c (PyDict.keys data))).
Proof.
  intros Hp Hv N code.
  assert (Hc : code = "L" +:+ str (PyDict.len data + 2025001)).
  { unfold code, N. now rewrite Z.add_comm. }
  split.
  - destruct (registration_run ins w data Hp Hv) as (Hr & Hf & Ha).
    rewrite <- Hc in Hr, Hf, Ha. split; [assumption|].
    exists (new_member ins (clock w (ticks w))).
    split; [assumption|]. split; [|apply get_set_eq].
    apply persisted_saved. rewrite Hf. apply lookup_insert_eq.
  - intros Hs.
    destruct (session_codes runs w data Hp Hs) as (data' & _ & _ & Ha).
    eexists. split; [exact Ha|].
    split; [now rewrite length_map, length_seq|].
    split; [apply nth_codes_NoDup|].
    intros c Hin Hk. unfold sequential in Hs. rewrite Hs in Hk.
    apply in_map_iff in Hin. destruct Hin as (i & <- & Hi).
    apply in_map_iff in Hk. destruct Hk as (j & Hj & Hjn).
    apply nth_code_inj in Hj. apply in_seq in Hi. apply in_seq in Hjn. lia.
Qed.

(** ** Months due *)

Section MonthsDue.
Implicit Types (w : World) (data : Dataset) (ins : Inputs) (user : User).

(** Fetching a member shows the months due; the year is read from one
    reading of the clock and the month from the next. *)
Lemma fetch_run ins w data user lp :
  persisted w = Done data ->
  st_selectbox ins "Menu" menu = "Record Payment" ->
  button ins "Fetch User" = true ->
  PyDict.get data (text_input ins "Enter Library Code") = Some user ->
  strptime (last_payment user) = Some lp ->
  In (st_write ("📅 Months Due: "
                +:+ str ((year (clock w (ticks w)) - year lp) * 12
                         + (month (clock w (S (ticks w))) - month lp))))
     (screen (snd (main ins w))).
Proof.
  intros Hp Hc Hf Hg Hl.
  rewrite (main_branch _ _ _ Hp). cbv zeta. rewrite Hc.
  simpl (String.eqb _ _).
  unfold record_payment, datetime_strptime. rewrite Hf, Hg, Hl.
  clear. destruct w as [fs ck tk ta tw ob sc].
  match goal with |- context [snd ?c] => destruct c as [r w'] eqn:E end.
  cbn [snd]. run_cases E.
  - match goal with |- context [send_sms ?c ?m ?w0] =>
      destruct (send_sms_cases c m w0) as [H|[H|[e H]]]; rewrite H
    end; cbn [snd screen show deliver]; rewrite !in_app_iff; simpl; tauto.
  - cbn [screen]. rewrite !in_app_iff. simpl. tauto.
Qed.

End MonthsDue.

(** C2.  The months due of a member at a reference date is
    (as_of.year - last_payment.year) * 12 + (as_of.month - last_payment.month),
    where last_payment is the member's stored date as parsed.  It is the same
    for all dates in the same two calendar months, whatever their days.  It
    is the number the pending check reports and the number shown when a
    member is fetched for payment (there as long as both readings of the
    clock fall in the month of the reference date).  From 2024-01-31 to
    2024-02-01 it is 1, from 2024-01-01 to 2024-01-31 it is 0. *)
Theorem months_overdue_calendar_difference
    (user : User) (lp as_of : datetime) :
  strptime (last_payment user) = Some lp ->
  let overdue := (year as_of - year lp) * 12 + (month as_of - month lp) in
  months_due as_of lp = overdue
  /\ (forall as_of' lp' : datetime,
        year as_of' = year as_of -> month as_of' = month as_of ->
        year lp' = year lp -> month lp' = month lp ->
        months_due as_of' lp' = months_due as_of lp)
  /\ (forall code w,
        0 < overdue ->
        In (st_warning (name user +:+ " (Code: " +:+ code +:+ ") owes ₹"
                        +:+ str (overdue * MONTHLY_FEE)
                        +:+ " (" +:+ str overdue +:+ " months)"))
           (screen (snd (check_pending_payment as_of (code, user) w))))
  /\ (forall ins w data,
        persisted w = Done data ->
        st_selectbox ins "Menu" menu = "Record Payment" ->
        button ins "Fetch User" = true ->
        PyDict.get data (text_input ins "Enter Library Code") = Some user ->
        year (clock w (ticks w)) = year as_of ->
        month (clock w (S (ticks w))) = month as_of ->
        In (st_write ("📅 Months Due: " +:+ str overdue)) (screen (snd (main ins w))))
  /\ (strptime "2024-01-31" = Some (mk_datetime 2024 1 31)
      /\ months_due (mk_datetime 2024 2 1) (mk_datetime 2024 1 31) = 1)
  /\ (strptime "2024-01-01" = Some (mk_datetime 2024 1 1)
      /\ months_due (mk_datetime 2024 1 31) (mk_datetime 2024 1 1) = 0).
Proof.
  intros Hl overdue. split; [reflexivity|]. split.
  { intros a l Hy Hm Hy' Hm'. unfold months_due. now rewrite Hy, Hm, Hy', Hm'. }
  split.
  { intros code w Hpos. apply Z.ltb_lt in Hpos.
    destruct w as [fs ck tk ta tw ob sc].
    destruct (check_pending_payment _ _ _) as [r w'] eqn:E. cbn [snd].
    unfold check_pending_payment, datetime_strptime in E. rewrite Hl in E.
    run_in E. change (months_due as_of lp) with overdue in E. rewrite Hpos in E.
    match type of E with context [send_sms ?c ?m ?w0] =>
      destruct (send_sms_cases c m w0) as [H|[H|[e H]]]; rewrite H in E
    end; injection E as <- <-; cbn [screen show deliver];
      rewrite !in_app_iff; simpl; tauto. }
  split.
  { intros ins w data Hp Hc Hf Hg Hy Hm. unfold overdue. rewrite <- Hy, <- Hm.
    now apply (fetch_run ins w data user lp). }
  repeat split; reflexivity.
Qed.

(** The member registered on 2025-01-10, looked at on 2025-03-15. *)
Lemma months_overdue_calendar_difference_witness :
  strptime (last_payment asha) = Some (mk_datetime 2025 1 10)
  /\ months_due (mk_datetime 2025 3 15) (mk_datetime 2025 1 10) = 2
  /\ In (st_warning "Asha (Code: L2025001) owes ₹1000 (2 months)")
        (screen (snd (check_pending_payment (mk_datetime 2025 3 15)
                        ("L2025001", asha) asha_registered)))
  /\ In (st_write "📅 Months Due: 2")
        (screen (snd (main (asha_fetches) asha_registered))).
Proof.
  split; [reflexivity|].
  destruct (months_overdue_calendar_difference asha (mk_datetime 2025 1 10)
              (mk_datetime 2025 3 15) eq_refl) as (H1 & _ & H3 & H4 & _).
  split; [exact H1|]. split.
  - apply (H3 "L2025001" asha_registered). reflexivity.
  - apply (H4 asha_fetches asha_registered [("L2025001", asha)]); reflexivity.
Defined.

(** ** Registration *)

(** C3.  After a complete registration the new record, filed under the
    code handed back, has exactly one payment; its amount is MONTHLY_FEE
    (500), its date is the record's admission date, and so is the record's
    last payment date.  The admission date is the day of the run. *)
Theorem registration_books_first_payment
    (ins : Inputs) (w : World) (data : Dataset) :
  persisted w = Done data ->
  valid_registration ins = true ->
  let code := "L" +:+ str (PyDict.len data + 2025001) in
  exists (user : User) (data' : Dataset),
    fst (main ins w) = Done data'
    /\ persisted (snd (main ins w)) = Done data'
    /\ announced_codes (snd (main ins w)) = announced_codes w ++ [code]
    /\ PyDict.get data' code = Some user
    /\ admission_date user = strftime (clock w (ticks w))
    /\ payments user = [mk_payment (admission_date user) MONTHLY_FEE]
    /\ MONTHLY_FEE = 500
    /\ last_payment user = admission_date user.
Proof.
  intros Hp Hv code.
  destruct (registration_run ins w data Hp Hv) as (Hr & Hf & Ha).
  exists (new_member ins (clock w (ticks w))). eexists.
  split; [exact Hr|]. split.
  { apply persisted_saved. rewrite Hf. apply lookup_insert_eq. }
  split; [exact Ha|]. split; [apply get_set_eq|].
  repeat split; reflexivity.
Qed.

Lemma registration_books_first_payment_witness :
  persisted opening_day = Done PyDict.empty
  /\ valid_registration asha_registers = true
  /\ exists (user : User) (data' : Dataset),
       fst (main asha_registers opening_day) = Done data'
       /\ persisted (snd (main asha_registers opening_day)) = Done data'
       /\ announced_codes (snd (main asha_registers opening_day))
          = announced_codes opening_day ++ ["L" +:+ str (PyDict.len (PyDict.empty : Dataset) + 2025001)]
       /\ PyDict.get data' ("L" +:+ str (PyDict.len (PyDict.empty : Dataset) + 2025001)) = Some user
       /\ admission_date user = strftime (clock opening_day (ticks opening_day))
       /\ payments user = [mk_payment (admission_date user) MONTHLY_FEE]
       /\ MONTHLY_FEE = 500
       /\ last_payment user = admission_date user.
Proof.
  split; [reflexivity|]. split; [reflexivity|].
  exact (registration_books_first_payment asha_registers opening_day
           (PyDict.empty : Dataset) eq_refl eq_refl).
Defined.

Example asha_is_registered :
  fst (main asha_registers opening_day) = Done [("L2025001", asha)].
Proof. reflexivity. Qed.

(** C5.  A registration submitted with an empty name, father's name or
    contact is refused with the error message; the dataset in memory and the
    files are as before, no code is handed back and no SMS is sent. *)
Theorem registration_requires_fields
    (ins : Inputs) (w : World) (data : Dataset) :
  persisted w = Done data ->
  st_selectbox ins "Menu" menu = "New User Registration" ->
  button ins "Register" = true ->
  text_input ins "Full Name" = EmptyString
  \/ text_input ins "Father's Name" = EmptyString
  \/ text_input ins "Contact Number (with +91)" = EmptyString ->
  let w' := snd (main ins w) in
  fst (main ins w) = Done data
  /\ files w' = files w
  /\ persisted w' = Done data
  /\ announced_codes w' = announced_codes w
  /\ outbox w' = outbox w
  /\ screen w' = screen w ++
       [st_title "📚 ReaderSpace Library Management System";
        st_subheader "🆕 Register New User";
        st_error "⚠ Name, Father's Name, and Contact are required!"].
Proof.
  intros Hp Hc Hb Hempty w'.
  assert (Hnot : py_not (text_input ins "Full Name")
                 || py_not (text_input ins "Father's Name")
                 || py_not (text_input ins "Contact Number (with +91)") = true).
  { destruct Hempty as [ -> | [ -> | -> ] ]; simpl; rewrite ?orb_true_r; reflexivity. }
  assert (E : main ins w =
              (Done data,
               show (st_error "⚠ Name, Father's Name, and Contact are required!")
                 (tick (show (st_subheader "🆕 Register New User")
                          (show (st_title "📚 ReaderSpace Library Management System") w))))).
  { rewrite (main_branch _ _ _ Hp). cbv zeta. rewrite Hc.
    simpl (String.eqb _ _). unfold new_user_registration.
    rewrite Hb, Hnot. reflexivity. }
  unfold w'. rewrite E. cbn [fst snd].
  split; [reflexivity|]. split; [reflexivity|].
  split; [rewrite <- Hp; now apply persisted_files|].
  split.
  { unfold announced_codes, show, tick. cbn [screen].
    rewrite !omap_app. simpl. now rewrite !app_nil_r. }
  split; [reflexivity|].
  unfold show, tick. cbn [screen]. now rewrite <- !app_assoc.
Qed.

Lemma registration_requires_fields_witness :
  persisted opening_day = Done PyDict.empty
  /\ text_input nameless_registers "Full Name" = EmptyString
  /\ fst (main nameless_registers opening_day) = Done PyDict.empty
  /\ files (snd (main nameless_registers opening_day)) = files opening_day.
Proof.
  split; [reflexivity|]. split; [reflexivity|].
  pose proof (registration_requires_fields nameless_registers opening_day
                PyDict.empty eq_refl eq_refl eq_refl (or_introl eq_refl)) as H.
  split; [exact (proj1 H) | exact (proj1 (proj2 H))].
Defined.

(** ** The store *)

(** C6.  [load_data] returns the empty mapping when there is no file and
    the whole dataset when the file holds one.  When the file holds
    something that cannot be decoded it raises the decoder's exception: the
    exception is not caught and the store is not reset, so every run of the
    script stops with it and leaves the files as they are. *)
Theorem load_data_cases (w : World) (ins : Inputs) :
  match files w !! FILENAME with
  | None => load_data w = (Done PyDict.empty, w)
  | Some (JsonDoc data) => load_data w = (Done data, w)
  | Some (Malformed _) =>
      load_data w = (Raised JSONDecodeError, w)
      /\ fst (main ins w) = Raised JSONDecodeError
      /\ files (snd (main ins w)) = files w
  | Some (Xlsx _) =>
      load_data w = (Raised UnicodeDecodeError, w)
      /\ fst (main ins w) = Raised UnicodeDecodeError
      /\ files (snd (main ins w)) = files w
  end.
Proof.
  pose proof (load_data_run w) as Hl.
  pose proof (main_raises ins w) as Hm.
  unfold persisted in Hm. rewrite Hl in Hm. cbn [fst] in Hm.
  destruct (files w !! FILENAME) as [[data|t|df]|]; try exact Hl;
    (split; [exact Hl|]); rewrite (Hm _ eq_refl); split; reflexivity.
Qed.

Example load_data_no_file : load_data opening_day = (Done [], opening_day).
Proof. reflexivity. Qed.

Example load_data_asha :
  fst (load_data asha_registered) = Done [("L2025001", asha)].
Proof. reflexivity. Qed.

Example load_data_garbage :
  load_data (store FILENAME (Malformed "{oops") opening_day)
  = (Raised JSONDecodeError, store FILENAME (Malformed "{oops") opening_day).
Proof. reflexivity. Qed.

Example run_on_garbage :
  fst (main asha_registers (store FILENAME (Malformed "{oops") opening_day))
  = Raised JSONDecodeError
  /\ files (snd (main asha_registers (store FILENAME (Malformed "{oops") opening_day)))
        !! FILENAME
     = Some (Malformed "{oops").
Proof. split; vm_compute; reflexivity. Qed.

(** ** The report *)

Section Report.
Implicit Types (data : Dataset) (user : User) (rows : DataFrame).

Lemma payment_rows code user (ps : list Payment) rows :
  fold_left (fun (rows : DataFrame) (pay : Payment) =>
               rows ++ [report_row code user pay]) ps rows
  = rows ++ map (report_row code user) ps.
Proof.
  revert rows. induction ps as [|p ps IH]; intros rows; simpl.
  - now rewrite app_nil_r.
  - rewrite IH. now rewrite <- app_assoc.
Qed.

Lemma member_rows data rows :
  fold_left
    (fun (rows : DataFrame) (item : string * User) =>
       let '(code, user) := item in
       fold_left (fun (rows : DataFrame) (pay : Payment) =>
                    rows ++ [report_row code user pay]) (payments user) rows)
    data rows
  = rows ++ flat_map (fun item => map (report_row (fst item) (snd item))
                                    (payments (snd item))) data.
Proof.
  revert rows. induction data as [|[code user] data IH]; intros rows; simpl.
  - now rewrite app_nil_r.
  - rewrite IH, payment_rows. now rewrite <- app_assoc.
Qed.

Lemma generate_report_flat_map data :
  generate_report data
  = flat_map (fun item => map (report_row (fst item) (snd item))
                            (payments (snd item))) data.
Proof. unfold generate_report, PyDict.items. now rewrite member_rows. Qed.

Lemma generate_report_app (d1 d2 : Dataset) :
  generate_report (d1 ++ d2) = generate_report d1 ++ generate_report d2.
Proof. rewrite !generate_report_flat_map. apply flat_map_app. Qed.

End Report.

(** C8.  The report has one row for each payment of each member, members in
    the order of the dataset and payments in the order of the ledger.  A row
    has the eight columns code, name, father's name, address, contact,
    admission date, payment date and amount paid, the first six taken from
    the member.  A member with no payments adds no rows, and a single member
    with two payments gives two rows. *)
Theorem generate_report_one_row_per_payment (data : Dataset) :
  generate_report data
  = flat_map (fun item => map (report_row (fst item) (snd item))
                            (payments (snd item))) data
  /\ length (generate_report data)
     = list_sum (map (fun item => length (payments (snd item))) data)
  /\ (forall code user pay,
        map fst (report_row code user pay)
        = ["Library Code"; "Name"; "Father's Name"; "Address"; "Contact";
           "Admission Date"; "Payment Date"; "Amount Paid"]
        /\ map snd (report_row code user pay)
           = [CStr code; CStr (name user); CStr (father_name user);
              CStr (address user); CStr (contact user);
              CStr (admission_date user); CStr (date pay); CInt (amount pay)])
  /\ (forall (before after : Dataset) code n f a e c s ad lp,
        generate_report (before ++ [(code, mk_user n f a e c s ad lp [])] ++ after)
        = generate_report before ++ generate_report after)
  /\ (forall code n f a e c s ad lp p1 p2,
        let user := mk_user n f a e c s ad lp [p1; p2] in
        generate_report [(code, user)]
        = [report_row code user p1; report_row code user p2]).
Proof.
  split; [apply generate_report_flat_map|]. split.
  { rewrite generate_report_flat_map.
    induction data as [|[code user] data IH]; simpl; [reflexivity|].
    now rewrite length_app, length_map, IH. }
  split; [intros; split; reflexivity|]. split.
  { intros. now rewrite !generate_report_app. }
  reflexivity.
Qed.

Example report_of_two_payments :
  generate_report [("L2025001", append_payment asha (mk_payment "2025-03-15" 1000))]
  = [[("Library Code", CStr "L2025001"); ("Name", CStr "Asha");
      ("Father's Name", CStr "Ram"); ("Address", CStr EmptyString);
      ("Contact", CStr "+911234567890"); ("Admission Date", CStr "2025-01-10");
      ("Payment Date", CStr "2025-01-10"); ("Amount Paid", CInt 500)];
     [("Library Code", CStr "L2025001"); ("Name", CStr "Asha");
      ("Father's Name", CStr "Ram"); ("Address", CStr EmptyString);
      ("Contact", CStr "+911234567890"); ("Admission Date", CStr "2025-01-10");
      ("Payment Date", CStr "2025-03-15"); ("Amount Paid", CInt 1000)]].
Proof. reflexivity. Qed.

(** ** Recording a payment *)

(** C4.  A confirmed payment for a member on file, made when the clock
    reads as_of, appends exactly one payment of months_paying_for times
    MONTHLY_FEE dated as_of and sets last_payment to as_of; the months due
    computed as of that date from the new record are 0. *)
Theorem record_payment_appends_and_resets
    (ins : Inputs) (w : World) (data : Dataset) (user : User) (lp : datetime) :
  persisted w = Done data ->
  st_selectbox ins "Menu" menu = "Record Payment" ->
  button ins "Fetch User" = true ->
  button ins "Confirm Payment" = true ->
  PyDict.get data (text_input ins "Enter Library Code") = Some user ->
  strptime (last_payment user) = Some lp ->
  let as_of := clock w (S (S (ticks w))) in
  valid as_of = true ->
  let code := text_input ins "Enter Library Code" in
  let months_paying_for := st_number_input ins "Months Paying For" 1 1 in
  exists (user' : User) (data' : Dataset),
    fst (main ins w) = Done data'
    /\ persisted (snd (main ins w)) = Done data'
    /\ PyDict.get data' code = Some user'
    /\ payments user'
       = payments user ++ [mk_payment (strftime as_of) (months_paying_for * MONTHLY_FEE)]
    /\ last_payment user' = strftime as_of
    /\ exists lp', strptime (last_payment user') = Some lp'
                   /\ months_due as_of lp' = 0.
Proof.
  intros Hp Hc Hf Hcf Hg Hl as_of Hv code months_paying_for.
  destruct (payment_run ins w data user lp Hp Hc Hf Hcf Hg Hl) as (Hr & Hfs).
  eexists _, _. split; [exact Hr|]. split.
  { apply persisted_saved. rewrite Hfs. apply lookup_insert_eq. }
  split; [apply get_set_eq|]. split; [reflexivity|]. split; [reflexivity|].
  exists as_of. split; [now apply strptime_strftime | apply months_due_same_date].
Qed.

Lemma record_payment_appends_and_resets_witness :
  persisted asha_registered = Done [("L2025001", asha)]
  /\ valid (clock asha_registered (S (S (ticks asha_registered)))) = true
  /\ exists (user' : User) (data' : Dataset),
       fst (main (asha_pays 2) asha_registered) = Done data'
       /\ persisted (snd (main (asha_pays 2) asha_registered)) = Done data'
       /\ PyDict.get data' "L2025001" = Some user'
       /\ payments user'
          = payments asha ++ [mk_payment "2025-03-15" (2 * MONTHLY_FEE)]
       /\ last_payment user' = "2025-03-15"
       /\ exists lp', strptime (last_payment user') = Some lp'
                      /\ months_due (mk_datetime 2025 3 15) lp' = 0.
Proof.
  split; [reflexivity|]. split; [reflexivity|].
  exact (record_payment_appends_and_resets (asha_pays 2) asha_registered
           [("L2025001", asha)] asha (mk_datetime 2025 1 10)
           eq_refl eq_refl eq_refl eq_refl eq_refl eq_refl eq_refl).
Defined.

(** C9.  A confirmed payment changes, in the record of the member paid
    for, the payments list (one entry more, the earlier entries as they
    were and where they were) and the last payment date, and nothing else:
    the other seven fields of that record, the records of all other members
    and the set and order of the codes are as before.  No run of the script,
    whatever its inputs, removes a code from the store. *)
Theorem record_payment_frame
    (ins : Inputs) (w : World) (data : Dataset) (user : User) (lp : datetime) :
  persisted w = Done data ->
  st_selectbox ins "Menu" menu = "Record Payment" ->
  button ins "Fetch User" = true ->
  button ins "Confirm Payment" = true ->
  PyDict.get data (text_input ins "Enter Library Code") = Some user ->
  strptime (last_payment user) = Some lp ->
  let code := text_input ins "Enter Library Code" in
  exists (user' : User) (data' : Dataset),
    fst (main ins w) = Done data'
    /\ persisted (snd (main ins w)) = Done data'
    /\ PyDict.get data' code = Some user'
    /\ (name user' = name user /\ father_name user' = father_name user
        /\ address user' = address user /\ email user' = email user
        /\ contact user' = contact user /\ seatno user' = seatno user
        /\ admission_date user' = admission_date user)
    /\ (exists paid, payments user' = payments user ++ [paid])
    /\ (forall i p, payments user !! i = Some p -> payments user' !! i = Some p)
    /\ (forall other, other <> code -> PyDict.get data' other = PyDict.get data other)
    /\ PyDict.keys data' = PyDict.keys data
    /\ (forall any : Inputs,
          exists kept,
            persisted (snd (main any w)) = Done kept
            /\ forall c, In c (PyDict.keys data) -> In c (PyDict.keys kept)).
Proof.
  intros Hp Hc Hf Hcf Hg Hl code.
  destruct (payment_run ins w data user lp Hp Hc Hf Hcf Hg Hl) as (Hr & Hfs).
  eexists _, _. split; [exact Hr|]. split.
  { apply persisted_saved. rewrite Hfs. apply lookup_insert_eq. }
  split; [apply get_set_eq|].
  split; [repeat split; reflexivity|].
  split; [eexists; reflexivity|].
  split; [intros i p Hi; now apply lookup_app_l_Some|].
  split; [intros other Hne; apply get_set_ne; intros Heq; apply Hne; now symmetry|].
  split; [apply keys_set_present; now apply get_Some_keys with user|].
  intros any. now apply main_keeps_codes.
Qed.

Lemma record_payment_frame_witness :
  persisted asha_registered = Done [("L2025001", asha)]
  /\ exists (user' : User) (data' : Dataset),
       fst (main (asha_pays 2) asha_registered) = Done data'
       /\ PyDict.get data' "L2025001" = Some user'
       /\ name user' = "Asha"
       /\ PyDict.keys data' = ["L2025001"].
Proof.
  split; [reflexivity|].
  destruct (record_payment_frame (asha_pays 2) asha_registered
              [("L2025001", asha)] asha (mk_datetime 2025 1 10)
              eq_refl eq_refl eq_refl eq_refl eq_refl eq_refl)
    as (user' & data' & H1 & _ & H3 & (H4 & _) & _ & _ & _ & H8 & _).
  exists user', data'. repeat split; assumption.
Defined.

(** ** The pending check *)

Section Pending.
Implicit Types (w : World) (data : Dataset) (user : User).

(** The line shown for a member who owes nothing. *)
Lemma up_to_date_line today code user lp w :
  strptime (last_payment user) = Some lp ->
  months_due today lp <= 0 ->
  check_pending_payment today (code, user) w
  = (Done tt, show (st_info (name user +:+ " (Code: " +:+ code
                             +:+ ") is up to date ✅")) w).
Proof.
  intros Hl Hle. unfold check_pending_payment, datetime_strptime.
  rewrite Hl. unfold bind at 1, ret.
  assert (H : (0 <? months_due today lp) = false) by now apply Z.ltb_ge.
  now rewrite H.
Qed.

Lemma all_up_to_date today data : forall w,
  (forall code user, In (code, user) data ->
     exists lp, strptime (last_payment user) = Some lp
                /\ months_due today lp <= 0) ->
  exists w',
    for_each (PyDict.items data) (check_pending_payment today) w = (Done tt, w')
    /\ outbox w' = outbox w
    /\ screen w'
       = screen w ++ map (fun item => st_info (name (snd item) +:+ " (Code: "
                                                +:+ fst item +:+ ") is up to date ✅"))
                       data.
Proof.
  induction data as [|[code user] data IH]; intros w Hall.
  - exists w. simpl. now rewrite app_nil_r.
  - destruct (Hall code user (or_introl eq_refl)) as (lp & Hl & Hle).
    destruct (IH (show (st_info (name user +:+ " (Code: " +:+ code
                                 +:+ ") is up to date ✅")) w))
      as (w' & Hrun & Hout & Hscr).
    { intros c u Hin. apply (Hall c u). now right. }
    exists w'. unfold PyDict.items in *. cbn [for_each]. unfold bind at 1.
    rewrite (up_to_date_line _ _ _ _ _ Hl Hle), Hrun.
    split; [reflexivity|]. split; [exact Hout|].
    rewrite Hscr. cbn [show screen map fst snd]. now rewrite <- app_assoc.
Qed.

Lemma check_pending_payments_run data w :
  check_pending_payments data w
  = bind (for_each (PyDict.items data) (check_pending_payment (clock w (ticks w))))
      (fun _ => ret data)
      (tick (show (st_subheader "💰 Pending Payments") w)).
Proof. reflexivity. Qed.

End Pending.

(** C10.  When a member's last payment lies in a calendar month after the
    month of the reference date, the months due are negative.  A member
    whose months due are zero or negative gets the "up to date" line and
    nothing else: no warning is drawn and nothing is handed to the SMS
    gateway for that member.  A pending check over a dataset in which no
    member has months due above zero draws one such line per member and
    sends nothing. *)
Theorem pending_check_up_to_date
    (today : datetime) (code : string) (user : User) (lp : datetime) (w : World) :
  valid today = true ->
  strptime (last_payment user) = Some lp ->
  (year today < year lp \/ (year today = year lp /\ month today < month lp) ->
   months_due today lp < 0)
  /\ (months_due today lp <= 0 ->
      let w' := snd (check_pending_payment today (code, user) w) in
      fst (check_pending_payment today (code, user) w) = Done tt
      /\ screen w' = screen w ++ [st_info (name user +:+ " (Code: " +:+ code
                                           +:+ ") is up to date ✅")]
      /\ outbox w' = outbox w)
  /\ (forall ins data w0,
        persisted w0 = Done data ->
        st_selectbox ins "Menu" menu = "Check Pending Payments" ->
        clock w0 (ticks w0) = today ->
        (forall c u, In (c, u) data ->
           exists l, strptime (last_payment u) = Some l /\ months_due today l <= 0) ->
        fst (main ins w0) = Done data
        /\ outbox (snd (main ins w0)) = outbox w0
        /\ screen (snd (main ins w0))
           = screen w0
             ++ [st_title "📚 ReaderSpace Library Management System";
                 st_subheader "💰 Pending Payments"]
             ++ map (fun item => st_info (name (snd item) +:+ " (Code: "
                                          +:+ fst item +:+ ") is up to date ✅"))
                  data).
Proof.
  intros Hv Hl. split; [|split].
  - intros Hafter. apply strptime_valid in Hl. unfold valid in *.
    apply valid_date_bounds in Hv, Hl. unfold months_due. lia.
  - intros Hle w'. unfold w'. rewrite (up_to_date_line _ _ _ _ _ Hl Hle).
    repeat split; reflexivity.
  - intros ins data w0 Hp Hc Hclock Hall.
    rewrite (main_branch _ _ _ Hp). cbv zeta. rewrite Hc.
    simpl (String.eqb _ _).
    rewrite check_pending_payments_run.
    cbn [show tick clock ticks]. rewrite Hclock. unfold bind, ret.
    match goal with |- context [for_each _ _ ?w1] =>
      destruct (all_up_to_date today data w1 Hall) as (w' & Hrun & Hout & Hscr)
    end.
    rewrite Hrun. cbn [fst snd].
    rewrite Hout, Hscr. cbn [show tick outbox screen].
    split; [reflexivity|]. split; [reflexivity|].
    now rewrite <- !app_assoc.
Qed.

(** A member whose last payment is dated 2025-04-02, checked on 2025-03-15;
    and the pending check run right after Asha has paid. *)
Lemma pending_check_up_to_date_witness :
  valid (mk_datetime 2025 3 15) = true
  /\ strptime (last_payment (set_last_payment asha "2025-04-02"))
     = Some (mk_datetime 2025 4 2)
  /\ months_due (mk_datetime 2025 3 15) (mk_datetime 2025 4 2) < 0
  /\ screen (snd (check_pending_payment (mk_datetime 2025 3 15)
                    ("L2025001", set_last_payment asha "2025-04-02") opening_day))
     = screen opening_day ++ [st_info ("Asha" +:+ " (Code: " +:+ "L2025001"
                                       +:+ ") is up to date ✅")]
  /\ outbox (snd (main pending_check asha_paid)) = outbox asha_paid.
Proof.
  split; [reflexivity|]. split; [reflexivity|].
  pose proof (pending_check_up_to_date (mk_datetime 2025 3 15) "L2025001"
                (set_last_payment asha "2025-04-02") (mk_datetime 2025 4 2)
                opening_day eq_refl eq_refl) as (Hneg & Hline & Hrun).
  split; [|split].
  - apply Hneg. right. split; reflexivity.
  - apply Hline. discriminate.
  - apply (Hrun pending_check
             [("L2025001", append_payment (set_last_payment asha "2025-03-15")
                             (mk_payment "2025-03-15" 1000))] asha_paid).
    + vm_compute. reflexivity.
    + reflexivity.
    + reflexivity.
    + intros c u [[= <- <-]|[]]. exists (mk_datetime 2025 3 15).
      split; [reflexivity | discriminate].
Defined.

(** Two registrations into an empty store, with a pending check between
    them. *)
Lemma member_code_allocation_witness :
  persisted opening_day = Done (PyDict.empty : Dataset)
  /\ valid_registration asha_registers = true
  /\ sequential (PyDict.empty : Dataset)
  /\ announced_codes (snd (main asha_registers opening_day))
     = announced_codes opening_day
       ++ ["L" +:+ str (2025001 + PyDict.len (PyDict.empty : Dataset))]
  /\ exists codes,
       announced_codes (session [asha_registers; pending_check; asha_registers]
                          opening_day)
       = announced_codes opening_day ++ codes
       /\ length codes = 2%nat
       /\ List.NoDup codes.
Proof.
  split; [reflexivity|]. split; [reflexivity|]. split; [reflexivity|].
  destruct (member_code_allocation asha_registers opening_day
              (PyDict.empty : Dataset) [asha_registers; pending_check; asha_registers]
              eq_refl eq_refl) as ((Hcode & _) & Hseq).
  split; [exact Hcode|].
  destruct (Hseq eq_refl) as (codes & Ha & Hlen & Hnd & _).
  exists codes. repeat split; assumption.
Defined.

Example two_registrations :
  announced_codes (session [asha_registers; pending_check; asha_registers] opening_day)
  = ["L2025001"; "L2025002"].
Proof. vm_compute. reflexivity. Qed.

(** * Further properties *)

(** ** What a computation cannot see and cannot touch *)

Section Blind.
Context {A B : Type}.

Lemma same_but_sms_refl w : same_but_sms w w.
Proof. repeat split. Qed.

Lemma blind_ret (a : A) : sms_blind (ret a).
Proof. intros w1 w2 H. now split. Qed.

Lemma blind_raise (e : exn) : sms_blind (@raise A e).
Proof. intros w1 w2 H. now split. Qed.

Lemma blind_bind (c : M A) (k : A -> M B) :
  sms_blind c -> (forall a, sms_blind (k a)) -> sms_blind (bind c k).
Proof.
  intros Hc Hk w1 w2 H. unfold bind.
  destruct (Hc w1 w2 H) as [Hr Hw].
  destruct (c w1) as [[a1|e1] u1], (c w2) as [[a2|e2] u2];
    cbn [fst snd] in *; try discriminate.
  - injection Hr as <-. now apply Hk.
  - injection Hr as <-. now split.
Qed.

Lemma keeps_ret {X : Type} (f : World -> X) (a : A) : keeps f (ret a).
Proof. intros w. reflexivity. Qed.

Lemma keeps_raise {X : Type} (f : World -> X) (e : exn) : keeps f (@raise A e).
Proof. intros w. reflexivity. Qed.

Lemma keeps_bind {X : Type} (f : World -> X) (c : M A) (k : A -> M B) :
  keeps f c -> (forall a, keeps f (k a)) -> keeps f (bind c k).
Proof.
  intros Hc Hk w. unfold bind. specialize (Hc w).
  destruct (c w) as [[a|e] u]; cbn [snd] in *; [|exact Hc].
  now rewrite Hk.
Qed.

End Blind.

Section Loops.
Context {A : Type}.

Lemma blind_for_each (xs : list A) (body : A -> M unit) :
  (forall x, sms_blind (body x)) -> sms_blind (for_each xs body).
Proof.
  intros Hb. induction xs as [|x xs IH]; simpl.
  - intros w1 w2 H. now split.
  - apply blind_bind; [apply Hb | intros _; exact IH].
Qed.

Lemma keeps_for_each {X : Type} (f : World -> X) (xs : list A) (body : A -> M unit) :
  (forall x, keeps f (body x)) -> keeps f (for_each xs body).
Proof.
  intros Hb. induction xs as [|x xs IH]; simpl.
  - intros w. reflexivity.
  - apply keeps_bind; [apply Hb | intros _; exact IH].
Qed.

End Loops.

Section BlindEffects.

Lemma blind_render e : sms_blind (render e).
Proof. intros w1 w2 (Hf & Hc & Ht). repeat split; assumption. Qed.

Lemma blind_now : sms_blind datetime_now.
Proof.
  intros w1 w2 (Hf & Hc & Ht). unfold datetime_now, same_but_sms.
  cbn [fst snd tick files clock ticks]. now rewrite Hf, Hc, Ht.
Qed.

Lemma blind_exists path : sms_blind (os_path_exists path).
Proof.
  intros w1 w2 (Hf & Hc & Ht). unfold os_path_exists. cbn [fst snd].
  rewrite Hf. repeat split; assumption.
Qed.

Lemma blind_read path : sms_blind (read_file path).
Proof.
  intros w1 w2 (Hf & Hc & Ht). unfold read_file. rewrite Hf.
  destruct (files w2 !! path); repeat split; assumption.
Qed.

Lemma blind_write path content : sms_blind (write_file path content).
Proof.
  intros w1 w2 (Hf & Hc & Ht). unfold write_file, same_but_sms.
  cbn [fst snd store files clock ticks]. now rewrite Hf, Hc, Ht.
Qed.

(** The one place where the gateway is looked at. *)
Lemma blind_send_sms c m : sms_blind (send_sms c m).
Proof.
  intros w1 w2 (Hf & Hc & Ht).
  destruct (send_sms_cases c m w1) as [H1|[H1|[e1 H1]]];
    destruct (send_sms_cases c m w2) as [H2|[H2|[e2 H2]]];
    rewrite H1, H2; repeat split; assumption.
Qed.

End BlindEffects.

(** Takes a computation apart along its binds, loops and tests. *)
Ltac blind :=
  repeat first
    [ apply blind_ret | apply blind_raise | apply blind_render | apply blind_now
    | apply blind_exists | apply blind_read | apply blind_write
    | apply blind_send_sms
    | apply blind_for_each; intros ?
    | apply blind_bind; [|intros ?]
    | match goal with
      | |- sms_blind (match ?x with _ => _ end) => destruct x; cbv beta iota
      end ].

Ltac keeps_leaf :=
  first
    [ intros ?; reflexivity
    | intros ?w; unfold send_sms;
      destruct (TWILIO_AVAILABLE w); [|reflexivity];
      match goal with |- context [twilio w ?c ?m] => destruct (twilio w c m) end;
      reflexivity
    | intros ?w; unfold read_file; cbn [snd];
      match goal with |- context [files w !! ?p] => destruct (files w !! p) end;
      reflexivity
    | intros ?; apply lookup_insert_ne; discriminate ].

Ltac frame :=
  repeat first
    [ apply keeps_for_each; intros ?
    | apply keeps_bind; [|intros ?]
    | match goal with
      | |- keeps _ (match ?x with _ => _ end) => destruct x; cbv beta iota
      end
    | keeps_leaf ].

Ltac open_script :=
  unfold main, load_data, new_user_registration, existing_user_login,
    check_pending_payments, check_pending_payment, record_payment,
    download_reports, save_data, json_load, datetime_strptime;
  cbv zeta.

Section Independence.

Lemma main_blind ins : sms_blind (main ins).
Proof. open_script. blind. Qed.

Lemma main_keeps_clock ins : keeps clock (main ins).
Proof. open_script. frame. Qed.

End Independence.

(** ** All that a run can do to the store *)

(** Closes a goal [run_kept data w r w'] for a world given field by field. *)
Ltac kept_done :=
  split;
  [ unfold store_kept; rewrite ?send_sms_files; cbn [files];
    first [ reflexivity | apply lookup_insert_ne; discriminate ]
  | first [ left; reflexivity | right; eexists; reflexivity ] ].

Section RunEffect.
Implicit Types (w : World) (data : Dataset) (ins : Inputs).

Lemma login_effect ins data w :
  run_kept data w (fst (existing_user_login ins data w))
    (snd (existing_user_login ins data w)).
Proof.
  destruct w as [fs ck tk ta tw ob sc].
  destruct (existing_user_login _ _ _) as [r w'] eqn:E. cbn [fst snd].
  unfold existing_user_login in E. run_cases E; kept_done.
Qed.

Lemma pending_keeps_files data : keeps files (check_pending_payments data).
Proof. open_script. frame. Qed.

Lemma pending_effect data w :
  run_kept data w (fst (check_pending_payments data w))
    (snd (check_pending_payments data w)).
Proof.
  split.
  - unfold store_kept. now rewrite pending_keeps_files.
  - unfold check_pending_payments, bind, render, datetime_now, ret.
    match goal with |- context [for_each ?xs ?b ?w0] =>
      destruct (for_each xs b w0) as [[[]|e] w1]
    end; cbn [fst]; [now left | right; now exists e].
Qed.

Lemma download_effect data w :
  run_kept data w (fst (download_reports data w)) (snd (download_reports data w)).
Proof.
  destruct w as [fs ck tk ta tw ob sc].
  destruct (download_reports _ _) as [r w'] eqn:E. cbn [fst snd].
  unfold download_reports, read_file in E.
  destruct (negb _); [|run_cases E; kept_done].
  run_in E. rewrite lookup_insert_eq in E. injection E as <- <-.
  kept_done.
Qed.

Lemma registration_refused_effect ins data w :
  button ins "Register"
  && negb (py_not (text_input ins "Full Name"))
  && negb (py_not (text_input ins "Father's Name"))
  && negb (py_not (text_input ins "Contact Number (with +91)")) = false ->
  run_kept data w (fst (new_user_registration ins data w))
    (snd (new_user_registration ins data w)).
Proof.
  intros Hno. destruct w as [fs ck tk ta tw ob sc].
  destruct (new_user_registration _ _ _) as [r w'] eqn:E. cbn [fst snd].
  unfold new_user_registration in E. revert Hno.
  run_cases E; intros Hno; try kept_done.
  repeat match goal with
         | H : context [py_not ?s] |- _ => destruct (py_not s)
         end;
    cbn [andb negb] in Hno; discriminate.
Qed.

Lemma record_payment_effect ins data w :
  st_selectbox ins "Menu" menu = "Record Payment" ->
  let r := fst (record_payment ins data w) in
  let w' := snd (record_payment ins data w) in
  run_kept data w r w' \/ run_booked ins data w r w'.
Proof.
  intros Hc. cbv zeta. destruct w as [fs ck tk ta tw ob sc].
  destruct (record_payment _ _ _) as [r w'] eqn:E. cbn [fst snd].
  unfold record_payment, datetime_strptime in E.
  destruct (button ins "Fetch User") eqn:Hf; [|left; run_cases E; kept_done].
  destruct (PyDict.get data _) as [user|] eqn:Hg; [|left; run_cases E; kept_done].
  destruct (strptime (last_payment user)) as [lp|] eqn:Hl;
    [|left; run_cases E; kept_done].
  run_cases E; [|left; kept_done].
  right. exists user. rewrite Hl, send_sms_files.
  repeat split; try assumption; try reflexivity; [now exists lp|].
  cbn [files]. apply lookup_insert_eq.
Qed.

(** One run, whatever its inputs. *)
Lemma main_effect ins w data :
  persisted w = Done data ->
  let r := fst (main ins w) in
  let w' := snd (main ins w) in
  run_kept data w r w' \/ run_registered ins data w r w' \/ run_booked ins data w r w'.
Proof.
  intros Hp. cbv zeta. destruct (valid_registration ins) eqn:Hv.
  { right. left. destruct (registration_run ins w data Hp Hv) as (Hr & Hf & _).
    split; [exact Hv|]. cbv zeta. rewrite <- nth_code_len.
    split; [exact Hr|]. rewrite Hf. apply lookup_insert_eq. }
  unfold valid_registration in Hv.
  rewrite (main_branch _ _ _ Hp). cbv zeta.
  set (w1 := show (st_title "📚 ReaderSpace Library Management System") w).
  destruct (String.eqb (st_selectbox ins "Menu" menu) "New User Registration")
    eqn:H1.
  { left. exact (registration_refused_effect ins data w1 Hv). }
  destruct (String.eqb (st_selectbox ins "Menu" menu) "Existing User Login").
  { left. exact (login_effect ins data w1). }
  destruct (String.eqb (st_selectbox ins "Menu" menu) "Check Pending Payments").
  { left. exact (pending_effect data w1). }
  destruct (String.eqb (st_selectbox ins "Menu" menu) "Record Payment") eqn:H4.
  { apply String.eqb_eq in H4.
    destruct (record_payment_effect ins data w1 H4) as [H|H];
      [left; exact H | right; right; exact H]. }
  destruct (String.eqb (st_selectbox ins "Menu" menu) "Download Reports").
  { left. exact (download_effect data w1). }
  left. split; [reflexivity | now left].
Qed.

End RunEffect.

(** ** Notifications *)

(** X1.  Whether Twilio is installed, whether the gateway takes or refuses
    a message, and what was sent or drawn before, decide nothing: two runs
    with the same inputs, files and clock end with the same outcome, the
    same files and the same clock. *)
Theorem notification_never_decides (ins : Inputs) (w1 w2 : World) :
  same_but_sms w1 w2 ->
  fst (main ins w1) = fst (main ins w2)
  /\ files (snd (main ins w1)) = files (snd (main ins w2))
  /\ clock (snd (main ins w1)) = clock (snd (main ins w2))
  /\ ticks (snd (main ins w1)) = ticks (snd (main ins w2)).
Proof.
  intros H. destruct (main_blind ins w1 w2 H) as (Hr & Hf & Hc & Ht). auto.
Qed.

Lemma notification_never_decides_witness :
  same_but_sms opening_day (with_gateway (Some "401 Unauthorized") opening_day)
  /\ fst (main asha_registers (with_gateway (Some "401 Unauthorized") opening_day))
     = Done [("L2025001", asha)]
  /\ files (snd (main asha_registers opening_day))
     = files (snd (main asha_registers (with_gateway (Some "401 Unauthorized") opening_day))).
Proof.
  assert (H : same_but_sms opening_day
                (with_gateway (Some "401 Unauthorized") opening_day))
    by (repeat split).
  split; [exact H|].
  destruct (notification_never_decides asha_registers _ _ H) as (Hr & Hf & _).
  split; [rewrite <- Hr; vm_compute; reflexivity | exact Hf].
Defined.

Example refused_message_is_reported :
  screen (snd (main asha_registers (with_gateway (Some "401 Unauthorized") opening_day)))
  = [st_title "📚 ReaderSpace Library Management System";
     st_subheader "🆕 Register New User";
     st_success "✅ User registered! Library Code: L2025001";
     st_error "❌ SMS sending failed: 401 Unauthorized"].
Proof. vm_compute. reflexivity. Qed.

(** ** Memory and store *)

(** X2.  Every change a run makes to the dataset is saved before the run
    ends: when a run that loaded a dataset completes, the dataset it ends
    with is the one the next run will load. *)
Theorem every_change_is_saved
    (ins : Inputs) (w : World) (data data' : Dataset) :
  persisted w = Done data ->
  fst (main ins w) = Done data' ->
  persisted (snd (main ins w)) = Done data'.
Proof.
  intros Hp Hr.
  destruct (main_effect ins w data Hp) as [[Hk Ho]|[(_ & Ho & Hf)|(u & _ & _ & _ & _ & _ & Ho & Hf)]].
  - rewrite (persisted_kept _ _ Hk), Hp.
    destruct Ho as [Ho|[e Ho]]; congruence.
  - apply persisted_saved. rewrite Hf. congruence.
  - apply persisted_saved. rewrite Hf. congruence.
Qed.

Lemma every_change_is_saved_witness :
  persisted asha_registered = Done [("L2025001", asha)]
  /\ fst (main (asha_pays 2) asha_registered)
     = Done [("L2025001", payment_of asha (mk_datetime 2025 3 15) 1000)]
  /\ persisted (snd (main (asha_pays 2) asha_registered))
     = Done [("L2025001", payment_of asha (mk_datetime 2025 3 15) 1000)].
Proof.
  split; [reflexivity|]. split; [vm_compute; reflexivity|].
  apply (every_change_is_saved (asha_pays 2) asha_registered [("L2025001", asha)]);
    vm_compute; reflexivity.
Defined.

(** ** Recording a payment: what it takes *)

(** X3.  In the Record Payment screen nothing is recorded unless Fetch User
    and Confirm Payment both report a click in the same run and the code
    entered is on file: otherwise the files and the outbox are as before,
    and the run ends with the dataset as loaded, or with the ValueError of
    a last payment date that cannot be read. *)
Theorem payment_needs_both_buttons
    (ins : Inputs) (w : World) (data : Dataset) :
  persisted w = Done data ->
  st_selectbox ins "Menu" menu = "Record Payment" ->
  button ins "Fetch User" = false
  \/ button ins "Confirm Payment" = false
  \/ PyDict.get data (text_input ins "Enter Library Code") = None ->
  files (snd (main ins w)) = files w
  /\ outbox (snd (main ins w)) = outbox w
  /\ (fst (main ins w) = Done data \/ fst (main ins w) = Raised ValueError).
Proof.
  intros Hp Hc Hno.
  rewrite (main_branch _ _ _ Hp). cbv zeta. rewrite Hc. simpl (String.eqb _ _).
  destruct w as [fs ck tk ta tw ob sc].
  destruct (record_payment _ _ _) as [r w'] eqn:E. cbn [fst snd].
  unfold record_payment, datetime_strptime in E.
  destruct (button ins "Fetch User") eqn:Hf;
    [|run_cases E; repeat split; now left].
  destruct (PyDict.get data _) as [user|] eqn:Hg;
    [|run_cases E; repeat split; now left].
  destruct Hno as [Hno|[Hno|Hno]]; try discriminate.
  rewrite Hno in E.
  destruct (strptime (last_payment user));
    run_cases E; repeat split; auto.
Qed.

Lemma payment_needs_both_buttons_witness :
  persisted asha_registered = Done [("L2025001", asha)]
  /\ button asha_confirms_only "Confirm Payment" = true
  /\ button asha_confirms_only "Fetch User" = false
  /\ files (snd (main asha_confirms_only asha_registered)) = files asha_registered
  /\ outbox (snd (main asha_confirms_only asha_registered)) = outbox asha_registered.
Proof.
  split; [reflexivity|]. split; [reflexivity|]. split; [reflexivity|].
  destruct (payment_needs_both_buttons asha_confirms_only asha_registered
              [("L2025001", asha)] eq_refl eq_refl (or_introl eq_refl))
    as (Hf & Ho & _).
  split; assumption.
Defined.

(** ** Logging in *)

Section Login.
Implicit Types (w : World) (data : Dataset) (ins : Inputs).

Lemma login_run ins w data :
  persisted w = Done data ->
  st_selectbox ins "Menu" menu = "Existing User Login" ->
  button ins "Login" = true ->
  main ins w
  = (Done data,
     show (match PyDict.get data (text_input ins "Enter Library Code") with
           | Some user => st_json user
           | None => st_error "❌ Invalid Library Code"
           end)
       (show (st_subheader "🔑 Login")
          (show (st_title "📚 ReaderSpace Library Management System") w))).
Proof.
  intros Hp Hc Hb.
  rewrite (main_branch _ _ _ Hp). cbv zeta. rewrite Hc. simpl (String.eqb _ _).
  unfold existing_user_login. rewrite Hb.
  destruct (PyDict.get data _); reflexivity.
Qed.

End Login.

(** X4.  Login looks the code up and changes nothing: for a code on file
    the page shows that member's record, for any other code the error, and
    in both cases the dataset, the files and the outbox are as before. *)
Theorem login_shows_record (ins : Inputs) (w : World) (data : Dataset) :
  persisted w = Done data ->
  st_selectbox ins "Menu" menu = "Existing User Login" ->
  button ins "Login" = true ->
  main ins w
  = (Done data,
     show (match PyDict.get data (text_input ins "Enter Library Code") with
           | Some user => st_json user
           | None => st_error "❌ Invalid Library Code"
           end)
       (show (st_subheader "🔑 Login")
          (show (st_title "📚 ReaderSpace Library Management System") w)))
  /\ files (snd (main ins w)) = files w
  /\ outbox (snd (main ins w)) = outbox w.
Proof.
  intros Hp Hc Hb. pose proof (login_run ins w data Hp Hc Hb) as E.
  rewrite E. repeat split.
Qed.

Lemma login_shows_record_witness :
  persisted asha_registered = Done [("L2025001", asha)]
  /\ In (st_json asha) (screen (snd (main asha_logs_in asha_registered)))
  /\ In (st_error "❌ Invalid Library Code")
        (screen (snd (main stranger_logs_in asha_registered))).
Proof.
  split; [reflexivity|].
  destruct (login_shows_record asha_logs_in asha_registered [("L2025001", asha)]
              eq_refl eq_refl eq_refl) as (E1 & _).
  destruct (login_shows_record stranger_logs_in asha_registered [("L2025001", asha)]
              eq_refl eq_refl eq_refl) as (E2 & _).
  rewrite E1, E2. split; vm_compute; tauto.
Defined.

(** X5.  A member who has just been registered can log in with the code
    that was handed back: the login run that follows shows exactly the
    record the registration built. *)
Theorem registered_member_can_log_in
    (reg login : Inputs) (w : World) (data : Dataset) :
  persisted w = Done data ->
  valid_registration reg = true ->
  st_selectbox login "Menu" menu = "Existing User Login" ->
  button login "Login" = true ->
  text_input login "Enter Library Code" = "L" +:+ str (PyDict.len data + 2025001) ->
  let w1 := snd (main reg w) in
  announced_codes w1 = announced_codes w ++ [text_input login "Enter Library Code"]
  /\ screen (snd (main login w1))
     = screen w1 ++ [st_title "📚 ReaderSpace Library Management System";
                     st_subheader "🔑 Login";
                     st_json (new_member reg (clock w (ticks w)))].
Proof.
  intros Hp Hv Hc Hb Hcode w1.
  destruct (registration_run reg w data Hp Hv) as (_ & Hf & Ha).
  split; [now rewrite Hcode|].
  assert (Hp1 : persisted w1
                = Done (PyDict.set data ("L" +:+ str (PyDict.len data + 2025001))
                          (new_member reg (clock w (ticks w))))).
  { apply persisted_saved. unfold w1. rewrite Hf. apply lookup_insert_eq. }
  rewrite (login_run login w1 _ Hp1 Hc Hb), Hcode, get_set_eq. cbn [snd show screen].
  now rewrite <- !app_assoc.
Qed.

Lemma registered_member_can_log_in_witness :
  persisted opening_day = Done (PyDict.empty : Dataset)
  /\ valid_registration asha_registers = true
  /\ screen (snd (main asha_logs_in (snd (main asha_registers opening_day))))
     = screen (snd (main asha_registers opening_day))
       ++ [st_title "📚 ReaderSpace Library Management System";
           st_subheader "🔑 Login";
           st_json (new_member asha_registers (clock opening_day (ticks opening_day)))].
Proof.
  split; [reflexivity|]. split; [reflexivity|].
  exact (proj2 (registered_member_can_log_in asha_registers asha_logs_in opening_day
                  (PyDict.empty : Dataset) eq_refl eq_refl eq_refl eq_refl eq_refl)).
Defined.

(** ** What every record in the store looks like *)

Section Invariants.
Implicit Types (w : World) (data : Dataset) (ins : Inputs) (user : User).

Lemma every_member_set (P : User -> Prop) data k user :
  every_member P data -> P user -> every_member P (PyDict.set data k user).
Proof.
  unfold every_member. intros Hall Hu.
  induction data as [|[k' u'] data IH]; simpl.
  - now constructor.
  - inversion Hall as [|? ? Hu' Hall']; subst.
    destruct (String.eqb k' k); simpl; constructor; auto.
Qed.

Lemma every_member_get (P : User -> Prop) data k user :
  every_member P data -> PyDict.get data k = Some user -> P user.
Proof.
  unfold every_member. intros Hall.
  induction data as [|[k' u'] data IH]; simpl; [discriminate|].
  inversion Hall as [|? ? Hu' Hall']; subst.
  destruct (String.eqb k' k); [intros [= <-]; assumption | auto].
Qed.

Lemma ledger_kept_new ins now : ledger_kept (new_member ins now).
Proof. split; [now exists []|reflexivity]. Qed.

Lemma ledger_kept_payment user today paid :
  ledger_kept user -> ledger_kept (payment_of user today paid).
Proof.
  intros [[rest Hp] _]. split.
  - exists (rest ++ [mk_payment (strftime today) paid]).
    cbn [payment_of append_payment set_last_payment payments admission_date].
    now rewrite Hp.
  - cbn [payment_of append_payment set_last_payment payments last_payment].
    now rewrite last_snoc.
Qed.

Lemma date_readable_new ins now :
  valid now = true -> date_readable (new_member ins now).
Proof.
  intros Hv. unfold date_readable, new_member. cbn [last_payment].
  rewrite strptime_strftime by assumption. now eexists.
Qed.

Lemma date_readable_payment user today paid :
  valid today = true -> date_readable (payment_of user today paid).
Proof.
  intros Hv. unfold date_readable, payment_of.
  cbn [append_payment set_last_payment last_payment].
  rewrite strptime_strftime by assumption. now eexists.
Qed.

(** One run keeps a property of all records that registration
    establishes and booking a payment keeps. *)
Lemma main_every_member (P : User -> Prop) ins w data :
  (P (new_member ins (clock w (ticks w)))) ->
  (forall user paid, P user ->
     P (payment_of user (clock w (S (S (ticks w)))) paid)) ->
  persisted w = Done data ->
  every_member P data ->
  exists data',
    persisted (snd (main ins w)) = Done data' /\ every_member P data'.
Proof.
  intros Hnew Hpay Hp Hall.
  destruct (main_effect ins w data Hp)
    as [[Hk _]|[(_ & _ & Hf)|(u & _ & _ & _ & Hg & _ & _ & Hf)]].
  - exists data. now rewrite (persisted_kept _ _ Hk).
  - eexists. split; [apply persisted_saved; exact Hf|].
    now apply every_member_set.
  - eexists. split; [apply persisted_saved; exact Hf|].
    apply every_member_set; [assumption|].
    apply Hpay. eapply every_member_get; eassumption.
Qed.

Lemma session_keeps_clock (runs : list Inputs) w :
  clock (session runs w) = clock w.
Proof.
  revert w. induction runs as [|ins runs IH]; intros w; [reflexivity|].
  rewrite session_cons, IH. apply main_keeps_clock.
Qed.

(** Any number of runs keep it as well. *)
Lemma session_every_member (P : User -> Prop) (Q : datetime -> Prop)
    (runs : list Inputs) :
  (forall ins now, Q now -> P (new_member ins now)) ->
  (forall user now paid, Q now -> P user -> P (payment_of user now paid)) ->
  forall w data,
    (forall i, Q (clock w i)) ->
    persisted w = Done data ->
    every_member P data ->
    exists data',
      persisted (session runs w) = Done data' /\ every_member P data'.
Proof.
  intros Hnew Hpay. induction runs as [|ins runs IH]; intros w data Hq Hp Hall.
  - exists data. now split.
  - destruct (main_every_member P ins w data) as (data1 & Hp1 & Hall1); auto.
    rewrite session_cons. apply (IH _ data1); auto.
    intros i. now rewrite main_keeps_clock.
Qed.

End Invariants.

(** X6.  Every record the script writes has the same shape, and no run
    spoils it: the ledger begins with the registration fee of MONTHLY_FEE
    booked on the admission date, and last_payment is the date of the last
    entry of the ledger.  If all records of the store have this shape, so
    have all records after any number of runs, whatever their inputs. *)
Theorem ledger_shape_is_kept (runs : list Inputs) (w : World) (data : Dataset) :
  persisted w = Done data ->
  every_member ledger_kept data ->
  exists data',
    persisted (session runs w) = Done data' /\ every_member ledger_kept data'.
Proof.
  intros Hp Hall.
  apply (session_every_member ledger_kept (fun _ => True) runs) with (data := data);
    auto using ledger_kept_new, ledger_kept_payment.
Qed.

Lemma ledger_shape_is_kept_witness :
  persisted opening_day = Done (PyDict.empty : Dataset)
  /\ every_member ledger_kept (PyDict.empty : Dataset)
  /\ exists data',
       persisted (session [asha_registers; asha_pays 2; asha_registers] opening_day)
       = Done data'
       /\ every_member ledger_kept data'.
Proof.
  split; [reflexivity|]. split; [constructor|].
  apply (ledger_shape_is_kept [asha_registers; asha_pays 2; asha_registers]
           opening_day (PyDict.empty : Dataset)); [reflexivity | constructor].
Defined.

(** ** The pending check, member by member *)

Section PendingLoop.
Implicit Types (w : World) (data : Dataset) (user : User).

Lemma for_each_app {A : Type} (body : A -> M unit) (xs ys : list A) w :
  for_each (xs ++ ys) body w
  = match for_each xs body w with
    | (Done _, w') => for_each ys body w'
    | (Raised e, w') => (Raised e, w')
    end.
Proof.
  revert w. induction xs as [|x xs IH]; intros w; simpl; [reflexivity|].
  unfold bind. destruct (body x w) as [[[]|e] w1]; [apply IH | reflexivity].
Qed.

Lemma check_pending_payment_done today (item : string * User) w :
  date_readable (snd item) ->
  fst (check_pending_payment today item w) = Done tt.
Proof.
  destruct item as [code user]. intros [lp Hl]. cbn [snd] in Hl.
  unfold check_pending_payment, datetime_strptime. rewrite Hl.
  unfold bind at 1, ret. destruct (0 <? _).
  - unfold bind, render. apply send_sms_done.
  - reflexivity.
Qed.

Lemma pending_loop_done today data : forall w,
  every_member date_readable data ->
  fst (for_each (PyDict.items data) (check_pending_payment today) w) = Done tt.
Proof.
  unfold every_member, PyDict.items.
  induction data as [|item data IH]; intros w Hall; [reflexivity|].
  inversion Hall as [|? ? Hi Hall']; subst. cbn [for_each]. unfold bind at 1.
  pose proof (check_pending_payment_done today item w Hi) as Hd.
  destruct (check_pending_payment today item w) as [[[]|e] w1];
    cbn [fst] in Hd; [now apply IH | discriminate].
Qed.

Lemma check_pending_payment_unreadable today code user w :
  strptime (last_payment user) = None ->
  check_pending_payment today (code, user) w = (Raised ValueError, w).
Proof.
  intros Hl. unfold check_pending_payment, datetime_strptime. now rewrite Hl.
Qed.

(** With a gateway that takes everything, one reminder per overdue
    member. *)
Lemma check_pending_payment_reminds today (item : string * User) w :
  gateway_accepts w ->
  date_readable (snd item) ->
  exists w1,
    check_pending_payment today item w = (Done tt, w1)
    /\ gateway_accepts w1
    /\ outbox w1
       = outbox w ++ map reminder (match overdue today item with
                                   | Some due => [due]
                                   | None => []
                                   end).
Proof.
  destruct item as [code user]. intros [Hav Hacc] [lp Hl]. cbn [snd] in Hl.
  unfold overdue. cbn [snd]. rewrite Hl.
  unfold check_pending_payment, datetime_strptime. rewrite Hl.
  unfold bind at 1, ret.
  destruct (0 <? months_due today lp) eqn:Hdue.
  - unfold bind, render, send_sms.
    cbn [show TWILIO_AVAILABLE twilio]. rewrite Hav, Hacc. cbn [negb].
    eexists. split; [reflexivity|]. split; [now split | reflexivity].
  - unfold render. eexists. split; [reflexivity|].
    split; [now split | cbn [show outbox map]; now rewrite app_nil_r].
Qed.

Lemma pending_loop_reminds today data : forall w,
  gateway_accepts w ->
  every_member date_readable data ->
  exists w',
    for_each (PyDict.items data) (check_pending_payment today) w = (Done tt, w')
    /\ gateway_accepts w'
    /\ outbox w' = outbox w ++ map reminder (omap (overdue today) data).
Proof.
  unfold every_member, PyDict.items.
  induction data as [|item data IH]; intros w Hg Hall.
  - exists w. simpl. now rewrite app_nil_r.
  - inversion Hall as [|? ? Hi Hall']; subst.
    destruct (check_pending_payment_reminds today item w Hg Hi)
      as (w1 & Hrun1 & Hg1 & Hout1).
    destruct (IH w1 Hg1 Hall') as (w' & Hrun & Hg' & Hout).
    exists w'. cbn [for_each omap list_omap]. unfold bind at 1.
    rewrite Hrun1, Hrun. split; [reflexivity|]. split; [assumption|].
    rewrite Hout, Hout1, <- app_assoc. f_equal.
    destruct (overdue today item); reflexivity.
Qed.

End PendingLoop.

(** X7.  The pending check never fails on a store this script has written.
    As long as the clock reads dates, every last payment date the script
    stores can be read back; so if the dates of the store can be read, then
    after any number of runs they still can, and a pending check run then
    completes, with the dataset and the files as they were. *)
Theorem pending_check_completes_on_own_store
    (runs : list Inputs) (ins : Inputs) (w : World) (data : Dataset) :
  persisted w = Done data ->
  every_member date_readable data ->
  (forall i, valid (clock w i) = true) ->
  st_selectbox ins "Menu" menu = "Check Pending Payments" ->
  exists data',
    persisted (session runs w) = Done data'
    /\ every_member date_readable data'
    /\ fst (main ins (session runs w)) = Done data'
    /\ files (snd (main ins (session runs w))) = files (session runs w).
Proof.
  intros Hp Hall Hclock Hc.
  destruct (session_every_member date_readable (fun now => valid now = true) runs)
    with (w := w) (data := data) as (data' & Hp' & Hall');
    auto using date_readable_new, date_readable_payment.
  exists data'. split; [assumption|]. split; [assumption|].
  rewrite (main_branch _ _ _ Hp'). cbv zeta. rewrite Hc. simpl (String.eqb _ _).
  split; [|now rewrite pending_keeps_files].
  rewrite check_pending_payments_run. unfold bind.
  match goal with |- context [for_each ?xs (check_pending_payment ?t) ?w0] =>
    pose proof (pending_loop_done t data' w0 Hall') as Hd;
    destruct (for_each xs (check_pending_payment t) w0) as [[[]|e] w1]
  end; cbn [fst] in Hd; [reflexivity | discriminate].
Qed.

Lemma pending_check_completes_on_own_store_witness :
  persisted opening_day = Done (PyDict.empty : Dataset)
  /\ every_member date_readable (PyDict.empty : Dataset)
  /\ (forall i, valid (clock opening_day i) = true)
  /\ exists data',
       persisted (session [asha_registers; asha_pays 2] opening_day) = Done data'
       /\ fst (main pending_check (session [asha_registers; asha_pays 2] opening_day))
          = Done data'.
Proof.
  assert (Hclock : forall i, valid (clock opening_day i) = true)
    by (intros [|i]; reflexivity).
  assert (Hnone : every_member date_readable (PyDict.empty : Dataset))
    by constructor.
  split; [reflexivity|]. split; [exact Hnone|]. split; [exact Hclock|].
  destruct (pending_check_completes_on_own_store [asha_registers; asha_pays 2]
              pending_check opening_day (PyDict.empty : Dataset)
              eq_refl Hnone Hclock eq_refl)
    as (data' & Hp & _ & Hr & _).
  exists data'. split; assumption.
Defined.

(** X8.  A last payment date that cannot be read stops the pending check
    at that member with a ValueError.  The members before have had their
    lines and reminders, exactly as in a check of those members alone; the
    members after are not looked at; and the files are untouched. *)
Theorem pending_check_stops_at_unreadable_date
    (w : World) (before after : Dataset) (code : string) (user : User) :
  every_member date_readable before ->
  strptime (last_payment user) = None ->
  check_pending_payments (before ++ (code, user) :: after) w
  = (Raised ValueError, snd (check_pending_payments before w))
  /\ files (snd (check_pending_payments before w)) = files w.
Proof.
  intros Hall Hbad. split; [|now rewrite pending_keeps_files].
  rewrite !check_pending_payments_run. unfold bind, PyDict.items.
  rewrite for_each_app.
  match goal with |- context [for_each before (check_pending_payment ?t) ?w0] =>
    pose proof (pending_loop_done t before w0 Hall) as Hd;
    unfold PyDict.items in Hd;
    destruct (for_each before (check_pending_payment t) w0) as [[[]|e] w1]
  end; cbn [fst] in Hd; [|discriminate].
  cbn [for_each]. unfold bind.
  now rewrite check_pending_payment_unreadable.
Qed.

Lemma pending_check_stops_at_unreadable_date_witness :
  every_member date_readable [("L2025001", asha)]
  /\ strptime (last_payment (set_last_payment ram "05/01/2025")) = None
  /\ fst (main pending_check damaged) = Raised ValueError
  /\ screen (snd (main pending_check damaged))
     = [st_title "📚 ReaderSpace Library Management System";
        st_subheader "💰 Pending Payments";
        st_warning "Asha (Code: L2025001) owes ₹1000 (2 months)"].
Proof.
  assert (Hall : every_member date_readable [("L2025001", asha)])
    by (repeat constructor; now eexists).
  split; [exact Hall|]. split; [reflexivity|].
  destruct (pending_check_stops_at_unreadable_date
              (show (st_title "📚 ReaderSpace Library Management System") damaged)
              [("L2025001", asha)] [("L2025003", ram)] "L2025002"
              (set_last_payment ram "05/01/2025") Hall eq_refl) as (E & _).
  assert (Em : main pending_check damaged
               = check_pending_payments
                   ([("L2025001", asha)]
                    ++ ("L2025002", set_last_payment ram "05/01/2025")
                       :: [("L2025003", ram)])
                   (show (st_title "📚 ReaderSpace Library Management System") damaged))
    by (vm_compute; reflexivity).
  rewrite Em, E. split; [reflexivity | vm_compute; reflexivity].
Defined.

(** X9.  With Twilio installed and a gateway that takes every message, a
    pending check over a store whose dates can be read sends exactly one
    reminder to each overdue member, in the order of the dataset, to the
    member's contact, naming the months due and months due times
    MONTHLY_FEE; members who owe nothing get none. *)
Theorem pending_check_reminds_overdue
    (ins : Inputs) (w : World) (data : Dataset) :
  persisted w = Done data ->
  st_selectbox ins "Menu" menu = "Check Pending Payments" ->
  gateway_accepts w ->
  every_member date_readable data ->
  fst (main ins w) = Done data
  /\ outbox (snd (main ins w))
     = outbox w ++ map reminder (omap (overdue (clock w (ticks w))) data).
Proof.
  intros Hp Hc Hg Hall.
  rewrite (main_branch _ _ _ Hp). cbv zeta. rewrite Hc. simpl (String.eqb _ _).
  rewrite check_pending_payments_run. unfold bind, ret.
  match goal with |- context [for_each _ (check_pending_payment ?t) ?w0] =>
    destruct (pending_loop_reminds t data w0) as (w' & Hrun & _ & Hout);
    [exact Hg | exact Hall |]
  end.
  rewrite Hrun. cbn [fst snd]. split; [reflexivity | exact Hout].
Qed.

Lemma pending_check_reminds_overdue_witness :
  persisted (with_gateway None asha_registered) = Done [("L2025001", asha)]
  /\ gateway_accepts (with_gateway None asha_registered)
  /\ every_member date_readable [("L2025001", asha)]
  /\ outbox (snd (main pending_check (with_gateway None asha_registered)))
     = [("+911234567890",
         "Dear Asha, you have 2 month(s) due. Total = ₹1000. Please pay soon.")].
Proof.
  assert (Hg : gateway_accepts (with_gateway None asha_registered)) by now split.
  assert (Hall : every_member date_readable [("L2025001", asha)])
    by (repeat constructor; now eexists).
  split; [reflexivity|]. split; [exact Hg|]. split; [exact Hall|].
  destruct (pending_check_reminds_overdue pending_check
              (with_gateway None asha_registered) [("L2025001", asha)]
              eq_refl eq_refl Hg Hall) as (_ & Hout).
  rewrite Hout. vm_compute. reflexivity.
Defined.

(** ** Records across runs *)

(** X10.  As long as the next code is free, no run takes anything away
    from a member on file: after any run, whatever its inputs, the member is
    still on file under the same code, with the same name, father's name,
    address, email, contact, seat number and admission date, and with the
    same ledger or the same ledger and one more entry at its end. *)
Theorem payments_only_grow
    (ins : Inputs) (w : World) (data : Dataset) (code : string) (user : User) :
  persisted w = Done data ->
  PyDict.get data (nth_code (length data)) = None ->
  PyDict.get data code = Some user ->
  exists (data' : Dataset) (user' : User),
    persisted (snd (main ins w)) = Done data'
    /\ PyDict.get data' code = Some user'
    /\ (name user' = name user /\ father_name user' = father_name user
        /\ address user' = address user /\ email user' = email user
        /\ contact user' = contact user /\ seatno user' = seatno user
        /\ admission_date user' = admission_date user)
    /\ (payments user' = payments user
        \/ exists paid, payments user' = payments user ++ [paid]).
Proof.
  intros Hp Hfree Hg.
  destruct (main_effect ins w data Hp)
    as [[Hk _]|[(_ & _ & Hf)|(u & _ & _ & _ & Hgu & _ & _ & Hf)]].
  - exists data, user. rewrite (persisted_kept _ _ Hk).
    repeat split; auto.
  - eexists _, user. split; [apply persisted_saved; exact Hf|].
    split; [|repeat split; auto].
    rewrite get_set_ne; [assumption|]. intros Heq. congruence.
  - destruct (String.string_dec (text_input ins "Enter Library Code") code)
      as [Heq|Hne].
    + eexists _, _. split; [apply persisted_saved; exact Hf|].
      rewrite Heq in *. split; [apply get_set_eq|].
      assert (u = user) as -> by congruence.
      split; [repeat split|]. right. eexists. reflexivity.
    + eexists _, user. split; [apply persisted_saved; exact Hf|].
      split; [now rewrite get_set_ne | repeat split; auto].
Qed.

Lemma payments_only_grow_witness :
  persisted asha_registered = Done [("L2025001", asha)]
  /\ PyDict.get [("L2025001", asha)] (nth_code 1) = None
  /\ exists (data' : Dataset) (user' : User),
       persisted (snd (main (asha_pays 2) asha_registered)) = Done data'
       /\ PyDict.get data' "L2025001" = Some user'
       /\ name user' = "Asha".
Proof.
  split; [reflexivity|]. split; [reflexivity|].
  destruct (payments_only_grow (asha_pays 2) asha_registered [("L2025001", asha)]
              "L2025001" asha eq_refl eq_refl eq_refl)
    as (data' & user' & Hp & Hg & (Hn & _) & _).
  exists data', user'. repeat split; assumption.
Defined.

(** X11.  The code of a registration is computed from the number of
    members alone.  When that code is already taken (a store from which a
    record was removed by hand), the registration does not add a member: it
    replaces the record filed under the code, hands that code back, and
    leaves the number of members as it was, so that the next registration
    computes the same code again. *)
Theorem registration_on_taken_code_overwrites
    (ins : Inputs) (w : World) (data : Dataset) (old : User) :
  persisted w = Done data ->
  valid_registration ins = true ->
  PyDict.get data (nth_code (length data)) = Some old ->
  let code := nth_code (length data) in
  exists data',
    persisted (snd (main ins w)) = Done data'
    /\ announced_codes (snd (main ins w)) = announced_codes w ++ [code]
    /\ PyDict.get data' code = Some (new_member ins (clock w (ticks w)))
    /\ PyDict.keys data' = PyDict.keys data
    /\ length data' = length data
    /\ nth_code (length data') = code.
Proof.
  intros Hp Hv Hold code.
  destruct (registration_run ins w data Hp Hv) as (_ & Hf & Ha).
  rewrite nth_code_len in Hf, Ha. fold code in Hf, Ha.
  assert (Hin : In code (PyDict.keys data)) by now apply get_Some_keys with old.
  pose proof (keys_set_present data code (new_member ins (clock w (ticks w))) Hin) as Hk.
  assert (Hlen : length (PyDict.set data code (new_member ins (clock w (ticks w))))
                 = length data).
  { apply (f_equal (@length string)) in Hk. unfold PyDict.keys in Hk.
    now rewrite !length_map in Hk. }
  eexists. split; [apply persisted_saved; rewrite Hf; apply lookup_insert_eq|].
  split; [exact Ha|]. split; [apply get_set_eq|]. split; [exact Hk|].
  split; [exact Hlen | now rewrite Hlen].
Qed.

Lemma registration_on_taken_code_overwrites_witness :
  persisted after_removal = Done [("L2025002", ram)]
  /\ valid_registration asha_registers = true
  /\ PyDict.get [("L2025002", ram)] (nth_code 1) = Some ram
  /\ fst (main asha_registers after_removal) = Done [("L2025002", asha)]
  /\ exists data',
       persisted (snd (main asha_registers after_removal)) = Done data'
       /\ PyDict.keys data' = ["L2025002"]
       /\ length data' = 1%nat.
Proof.
  split; [reflexivity|]. split; [reflexivity|]. split; [reflexivity|].
  split; [vm_compute; reflexivity|].
  destruct (registration_on_taken_code_overwrites asha_registers after_removal
              [("L2025002", ram)] ram eq_refl eq_refl eq_refl)
    as (data' & Hp & _ & _ & Hk & Hl & _).
  exists data'. repeat split; assumption.
Defined.

(** ** Reports *)

Section ReportGrowth.
Implicit Types (data : Dataset) (user : User).

Lemma generate_report_cons code user data :
  generate_report ((code, user) :: data)
  = map (report_row code user) (payments user) ++ generate_report data.
Proof. rewrite !generate_report_flat_map. reflexivity. Qed.

Lemma generate_report_payment data code user user' paid :
  PyDict.get data code = Some user ->
  payments user' = payments user ++ [paid] ->
  length (generate_report (PyDict.set data code user'))
  = S (length (generate_report data)).
Proof.
  intros Hg Hp. induction data as [|[k u] data IH]; [discriminate|].
  simpl in Hg |- *. destruct (String.eqb k code).
  - injection Hg as ->. rewrite !generate_report_cons, !length_app, !length_map, Hp.
    rewrite length_app. simpl. lia.
  - rewrite !generate_report_cons, !length_app, IH by assumption. lia.
Qed.

Lemma generate_report_has_payment data code user user' paid :
  PyDict.get data code = Some user ->
  In paid (payments user') ->
  In (report_row code user' paid) (generate_report (PyDict.set data code user')).
Proof.
  intros Hg Hin. induction data as [|[k u] data IH]; [discriminate|].
  simpl in Hg |- *. destruct (String.eqb k code) eqn:E.
  - apply String.eqb_eq in E. subst k.
    rewrite generate_report_cons, in_app_iff. left. now apply in_map.
  - rewrite generate_report_cons, in_app_iff. right. now apply IH.
Qed.

End ReportGrowth.

Section ConfirmedPayment.
Implicit Types (data : Dataset) (ins : Inputs).

Lemma confirmed_payment_true ins data :
  confirmed_payment ins data = true ->
  st_selectbox ins "Menu" menu = "Record Payment"
  /\ button ins "Fetch User" = true
  /\ button ins "Confirm Payment" = true
  /\ exists user lp,
       PyDict.get data (text_input ins "Enter Library Code") = Some user
       /\ strptime (last_payment user) = Some lp.
Proof.
  unfold confirmed_payment. intros H.
  repeat (apply andb_prop in H; destruct H as [H ?]).
  apply String.eqb_eq in H.
  destruct (PyDict.get data _) as [user|]; [|discriminate].
  destruct (strptime (last_payment user)) as [lp|] eqn:Hl; [|discriminate].
  repeat split; try assumption. now exists user, lp.
Qed.

Lemma run_booked_confirmed ins data w r w' :
  run_booked ins data w r w' -> confirmed_payment ins data = true.
Proof.
  intros (u & Hc & Hf & Hcf & Hg & [lp Hl] & _).
  unfold confirmed_payment. rewrite Hc, Hf, Hcf, Hg, Hl. reflexivity.
Qed.

End ConfirmedPayment.

(** X12.  What a run does to the report, as long as the next code is free.
    A complete registration adds one row at the end, the new member's first
    payment.  A confirmed payment for a member on file adds one row: the
    report is one row longer and has the row of the payment booked.  Every
    other run leaves the report as it is. *)
Theorem report_grows_with_the_ledger
    (ins : Inputs) (w : World) (data : Dataset) :
  persisted w = Done data ->
  PyDict.get data (nth_code (length data)) = None ->
  exists data',
    persisted (snd (main ins w)) = Done data'
    /\ (valid_registration ins = true ->
        let user := new_member ins (clock w (ticks w)) in
        generate_report data'
        = generate_report data
          ++ [report_row (nth_code (length data)) user
                (mk_payment (admission_date user) MONTHLY_FEE)])
    /\ (confirmed_payment ins data = true ->
        length (generate_report data') = S (length (generate_report data))
        /\ forall user,
             PyDict.get data (text_input ins "Enter Library Code") = Some user ->
             In (report_row (text_input ins "Enter Library Code") user
                   (mk_payment (strftime (clock w (S (S (ticks w)))))
                      (st_number_input ins "Months Paying For" 1 1 * MONTHLY_FEE)))
                (generate_report data'))
    /\ (valid_registration ins = false -> confirmed_payment ins data = false ->
        generate_report data' = generate_report data).
Proof.
  intros Hp Hfree.
  destruct (valid_registration ins) eqn:Hv; [|destruct (confirmed_payment ins data) eqn:Hc].
  - destruct (registration_run ins w data Hp Hv) as (_ & Hf & _).
    rewrite nth_code_len in Hf.
    eexists. split; [apply persisted_saved; rewrite Hf; apply lookup_insert_eq|].
    split; [|split; [|discriminate]].
    + intros _. cbv zeta.
      rewrite set_fresh by now apply get_None_keys.
      rewrite generate_report_app, generate_report_cons. reflexivity.
    + intros Hc. exfalso.
      destruct (confirmed_payment_true _ _ Hc) as (Hm & _).
      unfold valid_registration in Hv.
      repeat (apply andb_prop in Hv; destruct Hv as [Hv ?]).
      apply String.eqb_eq in Hv. rewrite Hm in Hv. discriminate.
  - destruct (confirmed_payment_true _ _ Hc) as (Hm & Hfu & Hcf & u & lp & Hg & Hl).
    destruct (payment_run ins w data u lp Hp Hm Hfu Hcf Hg Hl) as (_ & Hf).
    eexists. split; [apply persisted_saved; rewrite Hf; apply lookup_insert_eq|].
    split; [discriminate|]. split; [|discriminate].
    intros _. split.
    + now apply generate_report_payment with u (mk_payment
        (strftime (clock w (S (S (ticks w)))))
        (st_number_input ins "Months Paying For" 1 1 * MONTHLY_FEE)).
    + intros user Hgu. assert (u = user) as -> by congruence.
      match goal with |- In _ (generate_report (PyDict.set _ _ ?u')) =>
        change (In (report_row (text_input ins "Enter Library Code") u'
                      (mk_payment (strftime (clock w (S (S (ticks w)))))
                         (st_number_input ins "Months Paying For" 1 1 * MONTHLY_FEE)))
                   (generate_report
                      (PyDict.set data (text_input ins "Enter Library Code") u')))
      end.
      apply generate_report_has_payment with user; [exact Hg|].
      cbn [append_payment set_last_payment payments].
      rewrite in_app_iff. right. now left.
  - destruct (main_effect ins w data Hp) as [[Hk _]|[(Hv' & _)|Hb]].
    + exists data. split; [now rewrite (persisted_kept _ _ Hk)|].
      split; [discriminate|]. split; [discriminate | reflexivity].
    + rewrite Hv in Hv'. discriminate.
    + apply run_booked_confirmed in Hb. rewrite Hc in Hb. discriminate.
Qed.

Lemma report_grows_with_the_ledger_witness :
  persisted opening_day = Done (PyDict.empty : Dataset)
  /\ PyDict.get (PyDict.empty : Dataset) (nth_code 0) = None
  /\ valid_registration asha_registers = true
  /\ exists data',
       persisted (snd (main asha_registers opening_day)) = Done data'
       /\ generate_report data'
          = [report_row "L2025001" asha (mk_payment "2025-01-10" MONTHLY_FEE)].
Proof.
  split; [reflexivity|]. split; [reflexivity|]. split; [reflexivity|].
  destruct (report_grows_with_the_ledger asha_registers opening_day
              (PyDict.empty : Dataset) eq_refl eq_refl) as (data' & Hp & Hreg & _).
  exists data'. split; [exact Hp|].
  rewrite (Hreg eq_refl). reflexivity.
Defined.

Section Download.
Implicit Types (w : World) (data : Dataset).

Lemma download_reports_run data w :
  download_reports data w
  = match generate_report data with
    | [] =>
        (Done data,
         show (st_info "ℹ No data available yet.")
           (show (st_subheader "📊 Download Reports") w))
    | row :: rows =>
        let df := row :: rows in
        (Done data,
         show (st_download_button "⬇ Download Excel Report" (file_handle (Xlsx df))
                 "library_report.xlsx")
           (store "library_report.xlsx" (Xlsx df)
              (show (st_download_button "⬇ Download CSV Report" (csv_bytes df)
                       "library_report.csv")
                 (show (st_dataframe df)
                    (show (st_subheader "📊 Download Reports") w)))))
    end.
Proof.
  unfold download_reports. destruct (generate_report data) as [|row rows].
  - reflexivity.
  - cbn [df_empty negb]. unfold bind, render, write_file, read_file, ret.
    cbn [store files]. rewrite lookup_insert_eq. reflexivity.
Qed.

End Download.

(** X13.  Download Reports changes neither the dataset nor the store nor
    the outbox.  When the report has no rows (no members, or none with a
    payment) it only says that no data is available and writes no file.
    Otherwise it shows the rows, writes them to library_report.xlsx, and
    offers the CSV of the rows and the workbook just written. *)
Theorem download_reports_cases (ins : Inputs) (w : World) (data : Dataset) :
  persisted w = Done data ->
  st_selectbox ins "Menu" menu = "Download Reports" ->
  let df := generate_report data in
  let w' := snd (main ins w) in
  fst (main ins w) = Done data
  /\ persisted w' = Done data
  /\ outbox w' = outbox w
  /\ match df with
     | [] =>
         files w' = files w
         /\ screen w' = screen w ++
              [st_title "📚 ReaderSpace Library Management System";
               st_subheader "📊 Download Reports";
               st_info "ℹ No data available yet."]
     | _ :: _ =>
         files w' = <["library_report.xlsx" := Xlsx df]> (files w)
         /\ screen w' = screen w ++
              [st_title "📚 ReaderSpace Library Management System";
               st_subheader "📊 Download Reports";
               st_dataframe df;
               st_download_button "⬇ Download CSV Report" (csv_bytes df)
                 "library_report.csv";
               st_download_button "⬇ Download Excel Report" (file_handle (Xlsx df))
                 "library_report.xlsx"]
     end.
Proof.
  intros Hp Hc df w'. unfold w', df.
  rewrite (main_branch _ _ _ Hp). cbv zeta. rewrite Hc. simpl (String.eqb _ _).
  rewrite download_reports_run.
  destruct (generate_report data) as [|row rows]; cbv zeta; cbn [fst snd].
  - split; [reflexivity|]. split; [rewrite <- Hp; now apply persisted_files|].
    split; [reflexivity|]. split; [reflexivity|].
    cbn [show screen]. now rewrite <- !app_assoc.
  - split; [reflexivity|]. split.
    { rewrite <- Hp. apply persisted_kept. unfold store_kept. cbn [show store files].
      now apply lookup_insert_ne. }
    split; [reflexivity|]. split; [reflexivity|].
    cbn [show store screen]. now rewrite <- !app_assoc.
Qed.

Lemma download_reports_cases_witness :
  persisted asha_paid
  = Done [("L2025001", payment_of asha (mk_datetime 2025 3 15) 1000)]
  /\ fst (main download asha_paid)
     = Done [("L2025001", payment_of asha (mk_datetime 2025 3 15) 1000)]
  /\ files (snd (main download asha_paid)) !! "library_report.xlsx"
     = Some (Xlsx (generate_report
                     [("L2025001", payment_of asha (mk_datetime 2025 3 15) 1000)]))
  /\ screen (snd (main download opening_day))
     = [st_title "📚 ReaderSpace Library Management System";
        st_subheader "📊 Download Reports";
        st_info "ℹ No data available yet."].
Proof.
  split; [vm_compute; reflexivity|].
  destruct (download_reports_cases download asha_paid
              [("L2025001", payment_of asha (mk_datetime 2025 3 15) 1000)])
    as (Hr & _ & _ & Hcase); [vm_compute; reflexivity | reflexivity |].
  split; [exact Hr|]. split.
  - cbv zeta in Hcase.
    change (generate_report [("L2025001", payment_of asha (mk_datetime 2025 3 15) 1000)])
      with ([report_row "L2025001" (payment_of asha (mk_datetime 2025 3 15) 1000)
               (mk_payment "2025-01-10" 500);
             report_row "L2025001" (payment_of asha (mk_datetime 2025 3 15) 1000)
               (mk_payment "2025-03-15" 1000)]) in Hcase |- *.
    destruct Hcase as [Hf _]. rewrite Hf. apply lookup_insert_eq.
  - destruct (download_reports_cases download opening_day (PyDict.empty : Dataset)
                eq_refl eq_refl) as (_ & _ & _ & _ & Hs).
    exact Hs.
Defined.

Section ReportBack.
Implicit Types (data : Dataset) (user : User).

Lemma ledger_entry_row code k user (pay : Payment) :
  ledger_entry code (report_row k user pay)
  = if String.eqb k code then Some pay else None.
Proof.
  unfold ledger_entry, report_row. cbn -[String.eqb].
  destruct pay as [d a]. reflexivity.
Qed.

Lemma omap_cons_eq {A B : Type} (f : A -> option B) (x : A) (l : list A) :
  omap f (x :: l)
  = match f x with Some y => y :: omap f l | None => omap f l end.
Proof. reflexivity. Qed.

Lemma ledger_entries_member code k user :
  omap (ledger_entry code) (map (report_row k user) (payments user))
  = if String.eqb k code then payments user else [].
Proof.
  induction (payments user) as [|p ps IH]; cbn [map].
  - now destruct (String.eqb k code).
  - rewrite omap_cons_eq, ledger_entry_row, IH.
    now destruct (String.eqb k code).
Qed.

Lemma ledger_entries_absent code data :
  ~ In code (PyDict.keys data) ->
  omap (ledger_entry code) (generate_report data) = [].
Proof.
  induction data as [|[k u] data IH]; intros Hn; [reflexivity|].
  rewrite generate_report_cons, omap_app, ledger_entries_member.
  cbn [PyDict.keys map fst In] in Hn.
  destruct (String.eqb k code) eqn:E.
  - apply String.eqb_eq in E. tauto.
  - apply IH. unfold PyDict.keys. tauto.
Qed.

End ReportBack.

(** X14.  The report loses nothing of the ledgers: in a dataset in which
    every code occurs once, the rows of the report that carry a member's
    code, read back as payments (date and amount), are that member's
    payments list, entry by entry and in order. *)
Theorem report_keeps_every_ledger (data : Dataset) (code : string) (user : User) :
  List.NoDup (PyDict.keys data) ->
  PyDict.get data code = Some user ->
  omap (ledger_entry code) (generate_report data) = payments user.
Proof.
  induction data as [|[k u] data IH]; intros Hnd Hg; [discriminate|].
  cbn [PyDict.keys map fst] in Hnd. inversion Hnd as [|? ? Hk Hnd']; subst.
  rewrite generate_report_cons, omap_app, ledger_entries_member.
  simpl in Hg. destruct (String.eqb k code) eqn:E.
  - injection Hg as ->. apply String.eqb_eq in E. subst k.
    rewrite ledger_entries_absent by exact Hk. apply app_nil_r.
  - now apply IH.
Qed.

Lemma report_keeps_every_ledger_witness :
  List.NoDup (PyDict.keys [("L2025001", payment_of asha (mk_datetime 2025 3 15) 1000);
                           ("L2025002", ram)])
  /\ omap (ledger_entry "L2025001")
       (generate_report [("L2025001", payment_of asha (mk_datetime 2025 3 15) 1000);
                         ("L2025002", ram)])
     = [mk_payment "2025-01-10" 500; mk_payment "2025-03-15" 1000].
Proof.
  assert (Hnd : List.NoDup (PyDict.keys
                  [("L2025001", payment_of asha (mk_datetime 2025 3 15) 1000);
                   ("L2025002", ram)])).
  { repeat constructor; simpl; intuition discriminate. }
  split; [exact Hnd|].
  exact (report_keeps_every_ledger _ "L2025001"
           (payment_of asha (mk_datetime 2025 3 15) 1000) Hnd eq_refl).
Defined.

(** ** Confirmations *)

(** X15.  With Twilio installed and a gateway that takes the message, a
    complete registration sends exactly one message, to the contact number
    entered: the welcome naming the member, the code handed back, the
    admission date and the first payment of MONTHLY_FEE. *)
Theorem registration_sends_welcome (ins : Inputs) (w : World) (data : Dataset) :
  persisted w = Done data ->
  valid_registration ins = true ->
  gateway_accepts w ->
  outbox (snd (main ins w))
  = outbox w
    ++ [(text_input ins "Contact Number (with +91)",
         "Welcome " +:+ text_input ins "Full Name"
         +:+ "! Your Library Code is " +:+ ("L" +:+ str (PyDict.len data + 2025001))
         +:+ ". Admission Date: " +:+ strftime (clock w (ticks w))
         +:+ ". First payment of ₹" +:+ str MONTHLY_FEE +:+ " recorded.")].
Proof.
  intros Hp Hv [Hav Hacc]. unfold valid_registration in Hv.
  repeat (apply andb_prop in Hv; destruct Hv as [Hv ?]).
  rewrite (main_branch _ _ _ Hp). cbv zeta. rewrite Hv.
  unfold new_user_registration.
  repeat match goal with
         | H : negb ?b = true |- _ => apply negb_true_iff in H; rewrite H
         | H : button _ _ = true |- _ => rewrite H
         end.
  clear - Hav Hacc. destruct w as [fs ck tk ta tw ob sc].
  cbn [TWILIO_AVAILABLE twilio] in Hav, Hacc.
  match goal with |- context [snd ?c] => destruct c as [r w'] eqn:E end.
  cbn [snd]. run_in E. unfold send_sms in E.
  cbn [TWILIO_AVAILABLE twilio] in E. rewrite Hav, Hacc in E.
  injection E as <- <-. reflexivity.
Qed.

Lemma registration_sends_welcome_witness :
  persisted (with_gateway None opening_day) = Done (PyDict.empty : Dataset)
  /\ valid_registration asha_registers = true
  /\ gateway_accepts (with_gateway None opening_day)
  /\ outbox (snd (main asha_registers (with_gateway None opening_day)))
     = [("+911234567890",
         "Welcome Asha! Your Library Code is L2025001. Admission Date: 2025-01-10. First payment of ₹500 recorded.")].
Proof.
  assert (Hg : gateway_accepts (with_gateway None opening_day)) by now split.
  split; [reflexivity|]. split; [reflexivity|]. split; [exact Hg|].
  rewrite (registration_sends_welcome asha_registers (with_gateway None opening_day)
             (PyDict.empty : Dataset) eq_refl eq_refl Hg).
  vm_compute. reflexivity.
Defined.

(** X16.  With Twilio installed and a gateway that takes the message, a
    confirmed payment sends exactly one message, to the contact stored in
    the member's record: the receipt naming the amount, months paid for
    times MONTHLY_FEE, and the member. *)
Theorem payment_sends_receipt
    (ins : Inputs) (w : World) (data : Dataset) (user : User) (lp : datetime) :
  persisted w = Done data ->
  st_selectbox ins "Menu" menu = "Record Payment" ->
  button ins "Fetch User" = true ->
  button ins "Confirm Payment" = true ->
  PyDict.get data (text_input ins "Enter Library Code") = Some user ->
  strptime (last_payment user) = Some lp ->
  gateway_accepts w ->
  outbox (snd (main ins w))
  = outbox w
    ++ [(contact user,
         "Payment received: ₹"
         +:+ str (st_number_input ins "Months Paying For" 1 1 * MONTHLY_FEE)
         +:+ ". Thank you " +:+ name user +:+ "! Next due will be next month.")].
Proof.
  intros Hp Hc Hf Hcf Hg Hl [Hav Hacc].
  rewrite (main_branch _ _ _ Hp). cbv zeta. rewrite Hc. simpl (String.eqb _ _).
  unfold record_payment, datetime_strptime. rewrite Hf, Hg, Hl, Hcf.
  clear - Hav Hacc. destruct w as [fs ck tk ta tw ob sc].
  cbn [TWILIO_AVAILABLE twilio] in Hav, Hacc.
  match goal with |- context [snd ?c] => destruct c as [r w'] eqn:E end.
  cbn [snd]. run_in E. unfold send_sms in E.
  cbn [TWILIO_AVAILABLE twilio] in E. rewrite Hav, Hacc in E.
  injection E as <- <-. reflexivity.
Qed.

Lemma payment_sends_receipt_witness :
  persisted (with_gateway None asha_registered) = Done [("L2025001", asha)]
  /\ gateway_accepts (with_gateway None asha_registered)
  /\ outbox (snd (main (asha_pays 2) (with_gateway None asha_registered)))
     = [("+911234567890",
         "Payment received: ₹1000. Thank you Asha! Next due will be next month.")].
Proof.
  assert (Hg : gateway_accepts (with_gateway None asha_registered)) by now split.
  split; [reflexivity|]. split; [exact Hg|].
  rewrite (payment_sends_receipt (asha_pays 2) (with_gateway None asha_registered)
             [("L2025001", asha)] asha (mk_datetime 2025 1 10)
             eq_refl eq_refl eq_refl eq_refl eq_refl eq_refl Hg).
  vm_compute. reflexivity.
Defined.

(** ** Submitting a form twice *)

(** X17.  Registration does not look for a member who is already on file.
    Submitting the same complete form in two runs, one after the other, on
    a store whose codes are in sequence, files the same person twice: two
    codes are handed back, they differ, and the records filed under them
    both carry the name, the father's name and the contact entered in the
    form, none of them empty. *)
Theorem same_form_twice_registers_twice
    (ins : Inputs) (w : World) (data : Dataset) :
  persisted w = Done data ->
  sequential data ->
  valid_registration ins = true ->
  let first := nth_code (length data) in
  let second := nth_code (S (length data)) in
  let w2 := session [ins; ins] w in
  exists (data2 : Dataset) (u1 u2 : User),
    persisted w2 = Done data2
    /\ announced_codes w2 = announced_codes w ++ [first; second]
    /\ first <> second
    /\ length data2 = S (S (length data))
    /\ PyDict.get data2 first = Some u1
    /\ PyDict.get data2 second = Some u2
    /\ (name u1 = text_input ins "Full Name"
        /\ father_name u1 = text_input ins "Father's Name"
        /\ contact u1 = text_input ins "Contact Number (with +91)")
    /\ (name u2 = text_input ins "Full Name"
        /\ father_name u2 = text_input ins "Father's Name"
        /\ contact u2 = text_input ins "Contact Number (with +91)")
    /\ (text_input ins "Full Name" <> EmptyString
        /\ text_input ins "Father's Name" <> EmptyString
        /\ text_input ins "Contact Number (with +91)" <> EmptyString).
Proof.
  intros Hp Hs Hv first second w2.
  destruct (registration_run ins w data Hp Hv) as (_ & Hf1 & Ha1).
  rewrite nth_code_len in Hf1, Ha1.
  set (u1 := new_member ins (clock w (ticks w))) in *.
  set (data1 := PyDict.set data (nth_code (length data)) u1) in *.
  destruct (sequential_set data u1 Hs) as (Hs1 & Hl1). fold data1 in Hs1, Hl1.
  assert (Hp1 : persisted (snd (main ins w)) = Done data1).
  { apply persisted_saved. rewrite Hf1. apply lookup_insert_eq. }
  destruct (registration_run ins _ data1 Hp1 Hv) as (_ & Hf2 & Ha2).
  rewrite nth_code_len, Hl1 in Hf2, Ha2.
  set (u2 := new_member ins (clock (snd (main ins w)) (ticks (snd (main ins w))))) in *.
  assert (Hne : first <> second).
  { unfold first, second. intros E. apply nth_code_inj in E. lia. }
  exists (PyDict.set data1 second u2), u1, u2.
  split; [apply persisted_saved; unfold w2; rewrite !session_cons; cbn [session fold_left];
          rewrite Hf2; apply lookup_insert_eq|].
  split; [unfold w2; rewrite !session_cons; cbn [session fold_left];
          rewrite Ha2, Ha1, <- app_assoc; reflexivity|].
  split; [exact Hne|]. split.
  { destruct (sequential_set data1 u2 Hs1) as (_ & Hl2). rewrite Hl1 in Hl2.
    exact Hl2. }
  split.
  { rewrite get_set_ne by (intros E; now apply Hne). apply get_set_eq. }
  split; [apply get_set_eq|].
  split; [repeat split; reflexivity|]. split; [repeat split; reflexivity|].
  unfold valid_registration in Hv.
  repeat (apply andb_prop in Hv; destruct Hv as [Hv ?]).
  repeat split; intros E;
    match goal with
    | H : negb (py_not ?s) = true |- _ =>
        match type of E with s = _ => rewrite E in H; discriminate end
    end.
Qed.

Lemma same_form_twice_registers_twice_witness :
  persisted opening_day = Done (PyDict.empty : Dataset)
  /\ sequential (PyDict.empty : Dataset)
  /\ valid_registration asha_registers = true
  /\ announced_codes (session [asha_registers; asha_registers] opening_day)
     = ["L2025001"; "L2025002"]
  /\ exists (data2 : Dataset) (u1 u2 : User),
       persisted (session [asha_registers; asha_registers] opening_day) = Done data2
       /\ PyDict.get data2 "L2025001" = Some u1
       /\ PyDict.get data2 "L2025002" = Some u2
       /\ name u1 = "Asha" /\ name u2 = "Asha".
Proof.
  split; [reflexivity|]. split; [reflexivity|]. split; [reflexivity|].
  destruct (same_form_twice_registers_twice asha_registers opening_day
              (PyDict.empty : Dataset) eq_refl eq_refl eq_refl)
    as (data2 & u1 & u2 & Hp & Ha & _ & _ & H1 & H2 & (Hn1 & _) & (Hn2 & _) & _).
  split; [exact Ha|].
  exists data2, u1, u2. repeat split; assumption.
Defined.

(** ** The number of months paid for *)

Section MonthsPaid.
Implicit Types (w : World) (data : Dataset) (ins : Inputs) (user : User).





End MonthsPaid.



